(** * Configuration resolution and registry login of the Helm provider

    A shallow embedding of the provider's configuration-resolution layer
    ([overridableData], [k8sGetOk]), its connection factory
    ([Meta.GetHelmConfiguration]) and its registry-login coordinator
    ([OCIRegistryLogin]), followed by the properties established for them. *)

From stdpp Require Import base strings gmap list.

Set Warnings "-register-all".
Open Scope string_scope.

(** ** Go values, errors and outcomes *)

(** The dynamic values ([interface{}]) that flow through the getters. *)
Inductive value : Type :=
| VNil
| VString (s : string)
| VBool (b : bool)
| VInt (n : Z)
| VList (l : list value)
| VMap (m : list (string * value)).

(** Go [error] values.  [errors_New] stands for an error produced by a
    collaborator outside this package; [fmt_Errorf] keeps the format string
    and its arguments, so that a wrapped cause stays visible. *)
Inductive error : Type :=
| errors_New (msg : string)
| fmt_Errorf (format : string) (args : list fmtArg)
with fmtArg : Type :=
| ArgValue (v : value)
| ArgError (e : error).

(** A call either returns or panics (failed type assertion, nil dereference). *)
Inductive result (A : Type) : Type :=
| Return (a : A)
| Panic (reason : string).
Arguments Return {A} a.
Arguments Panic {A} reason.

Definition result_bind {A B} (r : result A) (k : A -> result B) : result B :=
  match r with
  | Return a => k a
  | Panic s => Panic s
  end.

(** [v.(string)] and [v.(bool)] *)
Definition assertString (v : value) : result string :=
  match v with
  | VString s => Return s
  | _ => Panic "interface conversion: interface {} is not string"
  end.

Definition assertBool (v : value) : result bool :=
  match v with
  | VBool b => Return b
  | _ => Panic "interface conversion: interface {} is not bool"
  end.

Definition isBool (v : value) : bool :=
  match v with VBool _ => true | _ => false end.

(** ** The [dataGetter] interface and [overridableData] *)

(** [dataGetter] lets the code call the Get methods on both
    [schema.ResourceDiff] and [schema.ResourceData]. *)
Class dataGetter (T : Type) : Type := {
  Get : T -> string -> value;
  GetOk : T -> string -> value * bool;
  GetOkExists : T -> string -> value * bool
}.

Record overridableData (P O : Type) : Type := {
  providerData : P;
  override : O
}.
Arguments providerData {P O} o.
Arguments override {P O} o.

Section Overridable.
Context {P O : Type} `{!dataGetter P} `{!dataGetter O}.

Definition overridableData_Get (o : overridableData P O) (key : string) : value :=
  let '(data, ok) := GetOk (override o) key in
  if ok then data else Get (providerData o) key.

Definition overridableData_GetOk (o : overridableData P O) (key : string)
  : value * bool :=
  let '(data, ok) := GetOk (override o) key in
  if ok then (data, true) else GetOk (providerData o) key.

Definition overridableData_GetOkExists (o : overridableData P O) (key : string)
  : value * bool :=
  let '(data, ok) := GetOkExists (override o) key in
  if ok then (data, true) else GetOkExists (providerData o) key.

#[export] Instance overridableData_dataGetter : dataGetter (overridableData P O) := {
  Get := overridableData_Get;
  GetOk := overridableData_GetOk;
  GetOkExists := overridableData_GetOkExists
}.
End Overridable.

(** ** The provider schema *)

(** What the plugin SDK contributes to the schema: the process environment
    and [schema.EnvDefaultFunc], a default producer that consults one
    environment variable and falls back to the given value. *)
Class SchemaSDK : Type := {
  Env : Type;
  EnvDefaultFunc : string -> value -> Env -> value * option error
}.

Module schema.
Inductive ValueType : Type := TypeBool | TypeString | TypeList | TypeMap.

Section WithSDK.
Context `{sdk : SchemaSDK}.

Definition SchemaDefaultFunc : Type := Env -> value * option error.

(** The fields of [schema.Schema] that the provider sets on the
    kubernetes block ([Elem] and the validation callbacks are not
    consulted by the resolver and are left out). *)
Record Schema : Type := {
  Type_ : ValueType;
  Optional : bool;
  MaxItems : nat;
  DefaultFunc : option SchemaDefaultFunc;
  Description : string;
  ConflictsWith : list string
}.

Record Resource : Type := { Schema_ : gmap string Schema }.
End WithSDK.
End schema.

Definition k8sPrefix : string := "kubernetes.0.".

Section Kubernetes.
Context `{sdk : SchemaSDK}.

Definition field (t : schema.ValueType) (df : option schema.SchemaDefaultFunc)
    (descr : string) : schema.Schema :=
  {| schema.Type_ := t; schema.Optional := true; schema.MaxItems := 0;
     schema.DefaultFunc := df; schema.Description := descr;
     schema.ConflictsWith := [] |}.

Definition kubernetesResource : schema.Resource :=
  {| schema.Schema_ := list_to_map [
    ("host", field schema.TypeString (Some (EnvDefaultFunc "KUBE_HOST" (VString "")))
       "The hostname (in form of URI) of Kubernetes master.");
    ("username", field schema.TypeString (Some (EnvDefaultFunc "KUBE_USER" (VString "")))
       "The username to use for HTTP basic authentication when accessing the Kubernetes master endpoint.");
    ("password", field schema.TypeString (Some (EnvDefaultFunc "KUBE_PASSWORD" (VString "")))
       "The password to use for HTTP basic authentication when accessing the Kubernetes master endpoint.");
    ("insecure", field schema.TypeBool (Some (EnvDefaultFunc "KUBE_INSECURE" (VBool false)))
       "Whether server should be accessed without verifying the TLS certificate.");
    ("client_certificate", field schema.TypeString
       (Some (EnvDefaultFunc "KUBE_CLIENT_CERT_DATA" (VString "")))
       "PEM-encoded client certificate for TLS authentication.");
    ("client_key", field schema.TypeString
       (Some (EnvDefaultFunc "KUBE_CLIENT_KEY_DATA" (VString "")))
       "PEM-encoded client certificate key for TLS authentication.");
    ("cluster_ca_certificate", field schema.TypeString
       (Some (EnvDefaultFunc "KUBE_CLUSTER_CA_CERT_DATA" (VString "")))
       "PEM-encoded root certificates bundle for TLS authentication.");
    ("config_paths", field schema.TypeList None
       "A list of paths to kube config files. Can be set with KUBE_CONFIG_PATHS environment variable.");
    ("config_path",
       {| schema.Type_ := schema.TypeString; schema.Optional := true;
          schema.MaxItems := 0;
          schema.DefaultFunc := Some (EnvDefaultFunc "KUBE_CONFIG_PATH" VNil);
          schema.Description :=
            "Path to the kube config file. Can be set with KUBE_CONFIG_PATH.";
          schema.ConflictsWith := ["kubernetes.0.config_paths"] |});
    ("config_context", field schema.TypeString
       (Some (EnvDefaultFunc "KUBE_CTX" (VString ""))) "");
    ("config_context_auth_info", field schema.TypeString
       (Some (EnvDefaultFunc "KUBE_CTX_AUTH_INFO" (VString ""))) "");
    ("config_context_cluster", field schema.TypeString
       (Some (EnvDefaultFunc "KUBE_CTX_CLUSTER" (VString ""))) "");
    ("token", field schema.TypeString (Some (EnvDefaultFunc "KUBE_TOKEN" (VString "")))
       "Token to authenticate an service account");
    ("proxy_url", field schema.TypeString
       (Some (EnvDefaultFunc "KUBE_PROXY_URL" (VString "")))
       "URL to the proxy to be used for all API requests");
    ("exec",
       {| schema.Type_ := schema.TypeList; schema.Optional := true;
          schema.MaxItems := 1; schema.DefaultFunc := None;
          schema.Description := ""; schema.ConflictsWith := [] |})
  ] |}.

(** [k8sGetOk].  The schema entry [s] is a pointer: for a key the schema
    does not have it is nil, and reading [s.DefaultFunc] panics; the read
    only happens when [ok] is false, as [&&] short-circuits. *)
Definition k8sGetOk {T} `{!dataGetter T} (env : Env) (d : T) (key : string)
  : result (value * bool) :=
  let '(value, ok) := GetOk d (k8sPrefix ++ key) in
  (* For boolean attributes the zero value is Ok *)
  let '(value, ok) :=
    match value with
    | VBool _ => GetOkExists d (k8sPrefix ++ key)
    | _ => (value, ok)
    end in
  (* fix: DefaultFunc is not being triggered on TypeList *)
  let s := schema.Schema_ kubernetesResource !! key in
  if ok then Return (value, ok)
  else
    match s with
    | None => Panic "invalid memory address or nil pointer dereference"
    | Some s =>
        match schema.DefaultFunc s with
        | None => Return (value, ok)
        | Some defaultFunc =>
            let '(value, _) := defaultFunc env in
            let ok :=
              match value with
              | VString v => negb (String.length v =? 0)%nat
              | VBool v => v
              | _ => ok
              end in
            Return (value, ok)
        end
    end.

(** [expandStringSlice] *)
Fixpoint expandStringSlice (s : list value) : result (list string) :=
  match s with
  | [] => Return []
  | v :: rest =>
      (* Handle the Terraform parser bug which turns empty strings in lists to nil. *)
      result_bind (match v with VNil => Return "" | _ => assertString v end)
        (fun x => result_bind (expandStringSlice rest) (fun xs => Return (x :: xs)))
  end.
End Kubernetes.

(** ** Stateful code: a state monad with panics and blocking *)

(** A stateful call finishes with a value, panics, or blocks for ever on a
    mutex that nobody releases. *)
Inductive outcome (S A : Type) : Type :=
| Done (a : A) (s : S)
| Panicked (reason : string) (s : S)
| Blocked.
Arguments Done {S A} a s.
Arguments Panicked {S A} reason s.
Arguments Blocked {S A}.

Definition M (S A : Type) : Type := S -> outcome S A.

Definition ret {S A} (a : A) : M S A := fun s => Done a s.

Definition bind {S A B} (c : M S A) (k : A -> M S B) : M S B :=
  fun s =>
    match c s with
    | Done a s' => k a s'
    | Panicked r s' => Panicked r s'
    | Blocked => Blocked
    end.

#[export] Instance M_ret {S} : MRet (M S) := fun A a => ret a.
#[export] Instance M_bind {S} : MBind (M S) := fun A B k c => bind c k.

Definition gets {S A} (f : S -> A) : M S A := fun s => Done (f s) s.
Definition modify {S} (f : S -> S) : M S unit := fun s => Done tt (f s).

Definition liftResult {S A} (r : result A) : M S A :=
  fun s =>
    match r with
    | Return a => Done a s
    | Panic reason => Panicked reason s
    end.

(** [defer cleanup] around the rest of the function body: the deferred call
    runs when the body returns and also when it panics. *)
Definition defer {S A} (cleanup : M S unit) (body : M S A) : M S A :=
  fun s =>
    match body s with
    | Done a s' =>
        match cleanup s' with
        | Done _ s'' => Done a s''
        | Panicked r s'' => Panicked r s''
        | Blocked => Blocked
        end
    | Panicked r s' =>
        match cleanup s' with
        | Done _ s'' => Panicked r s''
        | Panicked r' s'' => Panicked r' s''
        | Blocked => Blocked
        end
    | Blocked => Blocked
    end.

(** [sync.Mutex]: [true] while held.  [Lock] on a held mutex waits; with no
    other goroutine to release it, the call never returns. *)
Definition Mutex : Type := bool.

Definition Mutex_Lock {S} (get : S -> Mutex) (set : Mutex -> S -> S) : M S unit :=
  fun s => if get s then Blocked else Done tt (set true s).

Definition Mutex_Unlock {S} (get : S -> Mutex) (set : Mutex -> S -> S) : M S unit :=
  fun s =>
    if get s then Done tt (set false s)
    else Panicked "sync: unlock of unlocked mutex" s.

(** ** Process-wide state and the registry login *)

Record URL : Type := { Scheme : string; Host : string; Path : string }.

(** One call of the registry client's [Login]. *)
Record LoginCall : Type := {
  login_host : string;
  login_username : string;
  login_password : string
}.

(** One line written through [debug]: the format and its arguments. *)
Record LogLine : Type := { log_format : string; log_args : list fmtArg }.

(** The collaborators from Helm and the Go library that the registry login
    relies on. *)
Class Collaborators : Type := {
  (** what lies outside the process: file system, network, registries *)
  Ext : Type;
  (** the registry client handle *)
  Client : Type;
  (** the part of [action.Configuration] this package does not touch *)
  ConfigurationCore : Type;
  (** [registry.NewClient()] *)
  registry_NewClient : Ext -> (Client + error) * Ext;
  (** [registry.IsOCI] *)
  registry_IsOCI : string -> bool;
  (** [url.Parse] *)
  url_Parse : string -> URL + error;
  (** the client's [Login] with [registry.LoginOptBasicAuth]; [None] is a
      nil error *)
  Client_Login : Client -> string -> string -> string -> Ext -> option error * Ext
}.

Section Registry.
Context `{C : Collaborators}.

(** The package-level variables [loggedInOCIRegistries] and
    [OCILoginMutex], the log written by [debug], the outside world, and a
    record of the handshakes performed so far. *)
Record World : Type := {
  loggedInOCIRegistries : gmap string string;
  OCILoginMutex : Mutex;
  logged : list LogLine;
  loginCalls : list LoginCall;
  ext : Ext
}.

Definition set_loggedInOCIRegistries (f : gmap string string -> gmap string string)
    (w : World) : World :=
  {| loggedInOCIRegistries := f (loggedInOCIRegistries w);
     OCILoginMutex := OCILoginMutex w; logged := logged w;
     loginCalls := loginCalls w; ext := ext w |}.

Definition set_OCILoginMutex (b : Mutex) (w : World) : World :=
  {| loggedInOCIRegistries := loggedInOCIRegistries w;
     OCILoginMutex := b; logged := logged w;
     loginCalls := loginCalls w; ext := ext w |}.

Definition set_logged (f : list LogLine -> list LogLine) (w : World) : World :=
  {| loggedInOCIRegistries := loggedInOCIRegistries w;
     OCILoginMutex := OCILoginMutex w; logged := f (logged w);
     loginCalls := loginCalls w; ext := ext w |}.

Definition set_loginCalls (f : list LoginCall -> list LoginCall) (w : World) : World :=
  {| loggedInOCIRegistries := loggedInOCIRegistries w;
     OCILoginMutex := OCILoginMutex w; logged := logged w;
     loginCalls := f (loginCalls w); ext := ext w |}.

Definition set_ext (e : Ext) (w : World) : World :=
  {| loggedInOCIRegistries := loggedInOCIRegistries w;
     OCILoginMutex := OCILoginMutex w; logged := logged w;
     loginCalls := loginCalls w; ext := e |}.

(** [debug]: one more line in the log. *)
Definition debug (format : string) (a : list fmtArg) : M World unit :=
  modify (set_logged (fun l => (l ++ [{| log_format := format; log_args := a |}])%list)).

(** A call to a collaborator that works on the outside world. *)
Definition external {A} (f : Ext -> A * Ext) : M World A :=
  fun w => let '(a, e) := f (ext w) in Done a (set_ext e w).

(** The handshake itself, noted in [loginCalls]. *)
Definition registryClient_Login (c : Client) (host username password : string)
  : M World (option error) :=
  modify (set_loginCalls (fun l => (l ++
    [{| login_host := host; login_username := username;
        login_password := password |}])%list));;
  external (Client_Login c host username password).

(** [action.Configuration]: the registry client this package installs, and
    whatever [Init] has set up. *)
Record Configuration : Type := {
  RegistryClient : option Client;
  core : ConfigurationCore
}.

(** The reference that addresses a registry, if any: the repository when
    it is an OCI URL, else the chart when it is one, else the empty
    string. *)
Definition selectOCIURL (repository chartName : string) : string :=
  if registry_IsOCI repository then repository
  else if registry_IsOCI chartName then chartName
  else "".

(** [OCIRegistryLogin] creates an OCI registry client and logs into the
    registry if needed. *)
Definition OCIRegistryLogin {T} `{!dataGetter T} (actionConfig : Configuration) (d : T)
  : M World (Configuration * option error) :=
  r ← external registry_NewClient;
  match r with
  | inr err =>
      ret (actionConfig,
           Some (fmt_Errorf "could not create OCI registry client: %v" [ArgError err]))
  | inl registryClient =>
      let actionConfig :=
        {| RegistryClient := Some registryClient; core := core actionConfig |} in
      (* log in to the registry if neccessary *)
      repository ← liftResult (assertString (Get d "repository"));
      chartName ← liftResult (assertString (Get d "chart"));
      let ociURL := selectOCIURL repository chartName in
      if decide (ociURL = "") then ret (actionConfig, None)
      else
        username ← liftResult (assertString (Get d "repository_username"));
        password ← liftResult (assertString (Get d "repository_password"));
        if decide (username ≠ "" ∧ password ≠ "") then
          match url_Parse ociURL with
          | inr err =>
              ret (actionConfig,
                   Some (fmt_Errorf "could not parse OCI registry URL: %v"
                           [ArgError err]))
          | inl u =>
              Mutex_Lock OCILoginMutex set_OCILoginMutex;;
              defer (Mutex_Unlock OCILoginMutex set_OCILoginMutex)
                (regs ← gets loggedInOCIRegistries;
                 match regs !! Host u with
                 | Some _ =>
                     debug "[INFO] Already logged into OCI registry %q"
                       [ArgValue (VString (Host u))];;
                     ret (actionConfig, None)
                 | None =>
                     err ← registryClient_Login registryClient (Host u)
                              username password;
                     match err with
                     | Some err =>
                         ret (actionConfig,
                              Some (fmt_Errorf
                                      "could not login to OCI registry %q: %v"
                                      [ArgValue (VString (Host u)); ArgError err]))
                     | None =>
                         modify (set_loggedInOCIRegistries (insert (Host u) ""));;
                         debug "[INFO] Logged into OCI registry" [];;
                         ret (actionConfig, None)
                     end
                 end)
          end
        else ret (actionConfig, None)
  end.

(** The getter [d] asks for a login at [host] with the given credentials:
    its references select a registry-addressed URL that parses and whose
    host is [host], and user name and password are both given. *)
Definition targetsHost {T} `{!dataGetter T} (d : T) (host username password : string)
  : Prop :=
  ∃ repository chartName u,
    Get d "repository" = VString repository ∧
    Get d "chart" = VString chartName ∧
    Get d "repository_username" = VString username ∧
    Get d "repository_password" = VString password ∧
    selectOCIURL repository chartName ≠ "" ∧
    username ≠ "" ∧ password ≠ "" ∧
    url_Parse (selectOCIURL repository chartName) = inl u ∧
    Host u = host.

(** The call asks for a login at [host] with credentials that the
    registry accepts whenever they are presented. *)
Definition accepted {T} `{!dataGetter T} (host : string) (call : Configuration * T)
  : Prop :=
  ∃ username password,
    targetsHost call.2 host username password ∧
    ∀ c e, (Client_Login c host username password e).1 = None.

(** Several operations logging in one after the other, as the mutex
    orders them when they do not overlap. *)
Fixpoint loginEach {T} `{!dataGetter T} (calls : list (Configuration * T))
  : M World (list (Configuration * option error)) :=
  match calls with
  | [] => ret []
  | (actionConfig, d) :: rest =>
      r ← OCIRegistryLogin actionConfig d;
      rs ← loginEach rest;
      ret (r :: rs)
  end.

(** The handle after [OCIRegistryLogin] has installed the client. *)
Definition withRegistryClient (actionConfig : Configuration) (c : Client)
  : Configuration :=
  {| RegistryClient := Some c; core := core actionConfig |}.
End Registry.

(** ** Provider state and the connection factory *)

(** [cli.EnvSettings], as far as the provider fills it in. *)
Record EnvSettings : Type := {
  Debug : bool;
  PluginsDirectory : string;
  RegistryConfig : string;
  RepositoryConfig : string;
  RepositoryCache : string
}.

(** [Meta] is the meta information structure for the provider; [P] is the
    provider-level [schema.ResourceData].  The embedded [sync.Mutex] is the
    field [Meta_Mutex]. *)
Record Meta (P : Type) : Type := {
  data : P;
  Settings : EnvSettings;
  HelmDriver : string;
  Meta_Mutex : Mutex;
  experiments : gmap string bool
}.
Arguments data {P} m.
Arguments Settings {P} m.
Arguments HelmDriver {P} m.
Arguments Meta_Mutex {P} m.
Arguments experiments {P} m.

Definition set_Meta_Mutex {P} (b : Mutex) (m : Meta P) : Meta P :=
  {| data := data m; Settings := Settings m; HelmDriver := HelmDriver m;
     Meta_Mutex := b; experiments := experiments m |}.

(** [ExperimentEnabled] returns true if the named experiment is enabled. *)
Definition ExperimentEnabled {P} (m : Meta P) (name : string) : bool :=
  default false (experiments m !! name).

(** What building a connection calls into: [newKubeConfig], which resolves
    the connection fields through the getter it is given (it receives a
    pointer to [namespace] and may update it), and the [Init] method of
    [action.Configuration] with the zero value that [new] allocates. *)
Class ConnectionCollaborators `{C : Collaborators} (P O : Type) : Type := {
  KubeConfig : Type;
  newKubeConfig :
    overridableData P O -> string -> M World ((KubeConfig + error) * string);
  ConfigurationCore_zero : ConfigurationCore;
  Configuration_Init :
    Configuration -> KubeConfig -> string -> string ->
    M World (Configuration * option error)
}.

Section Connection.
Context `{C : Collaborators} {P O : Type} `{K : !ConnectionCollaborators P O}.

(** The receiver of a method call together with the package state. *)
Record Running : Type := { receiver : Meta P; globals : World }.

Definition onMeta {A} (c : M (Meta P) A) : M Running A :=
  fun s =>
    match c (receiver s) with
    | Done a m => Done a {| receiver := m; globals := globals s |}
    | Panicked r m => Panicked r {| receiver := m; globals := globals s |}
    | Blocked => Blocked
    end.

Definition onWorld {A} (c : M World A) : M Running A :=
  fun s =>
    match c (globals s) with
    | Done a w => Done a {| receiver := receiver s; globals := w |}
    | Panicked r w => Panicked r {| receiver := receiver s; globals := w |}
    | Blocked => Blocked
    end.

(** [GetHelmConfiguration] will return a new Helm configuration. *)
Definition GetHelmConfiguration (d : O) (namespace : string)
  : M Running (option Configuration * option error) :=
  onMeta (Mutex_Lock Meta_Mutex set_Meta_Mutex);;
  defer (onMeta (Mutex_Unlock Meta_Mutex set_Meta_Mutex))
    (onWorld (debug "[INFO] GetHelmConfiguration start" []);;
     let actionConfig :=
       {| RegistryClient := None; core := ConfigurationCore_zero |} in
     m ← gets receiver;
     '(r, namespace) ← onWorld
         (newKubeConfig {| providerData := data m; override := d |} namespace);
     match r with
     | inr err => ret (None, Some err)
     | inl kc =>
         m ← gets receiver;
         '(actionConfig, err) ← onWorld
             (Configuration_Init actionConfig kc namespace (HelmDriver m));
         match err with
         | Some err => ret (None, Some err)
         | None =>
             onWorld (debug "[INFO] GetHelmConfiguration success" []);;
             ret (Some actionConfig, None)
         end
     end).
End Connection.

(** ** Provider configuration and schema callbacks *)

(** The keys of an experiments map whose flag is set.  Go visits a map in
    no fixed order; the list here follows the order of the finite map. *)
Definition enabledExperiments (e : gmap string bool) : list string :=
  omap (fun kv : string * bool => if kv.2 then Some kv.1 else None) (map_to_list e).

(** [GetEnabledExperiments] returns a list of the experimental features
    that are enabled. *)
Definition GetEnabledExperiments {P} (m : Meta P) : list string :=
  enabledExperiments (experiments m).

Module diag.
Inductive Severity : Type := Error | Warning.

Record Diagnostic : Type := {
  Severity_ : Severity;
  Summary : string;
  Detail : string
}.
End diag.

(** [cli.New()], which reads the Helm settings from the environment. *)
Class CLICollaborators `{C : Collaborators} : Type := {
  cli_New : Ext -> EnvSettings * Ext
}.

Section Configure.
Context `{C : Collaborators} `{!CLICollaborators} {P : Type} `{!dataGetter P}.

Definition set_Debug (b : bool) (s : EnvSettings) : EnvSettings :=
  {| Debug := b; PluginsDirectory := PluginsDirectory s;
     RegistryConfig := RegistryConfig s; RepositoryConfig := RepositoryConfig s;
     RepositoryCache := RepositoryCache s |}.

Definition set_PluginsDirectory (v : string) (s : EnvSettings) : EnvSettings :=
  {| Debug := Debug s; PluginsDirectory := v;
     RegistryConfig := RegistryConfig s; RepositoryConfig := RepositoryConfig s;
     RepositoryCache := RepositoryCache s |}.

Definition set_RegistryConfig (v : string) (s : EnvSettings) : EnvSettings :=
  {| Debug := Debug s; PluginsDirectory := PluginsDirectory s;
     RegistryConfig := v; RepositoryConfig := RepositoryConfig s;
     RepositoryCache := RepositoryCache s |}.

Definition set_RepositoryConfig (v : string) (s : EnvSettings) : EnvSettings :=
  {| Debug := Debug s; PluginsDirectory := PluginsDirectory s;
     RegistryConfig := RegistryConfig s; RepositoryConfig := v;
     RepositoryCache := RepositoryCache s |}.

Definition set_RepositoryCache (v : string) (s : EnvSettings) : EnvSettings :=
  {| Debug := Debug s; PluginsDirectory := PluginsDirectory s;
     RegistryConfig := RegistryConfig s; RepositoryConfig := RepositoryConfig s;
     RepositoryCache := v |}.

(** The pattern [if v, ok := d.GetOk(key); ok { x = v.(string) }]: the
    configured string when the key is set, else what [x] held. *)
Definition configuredString (d : P) (key : string) (current : string)
  : M World string :=
  let '(v, ok) := GetOk d key in
  if ok then liftResult (assertString v) else ret current.

(** [providerConfigure].  The line printed with [log.Println] is kept with
    its first operand in the place of the format.  The [Meta] is put
    together at the end; its mutex and, when [helm_driver] is not set, its
    driver name keep their zero values. *)
Definition providerConfigure (d : P) (terraformVersion : string)
  : M World (Meta P * list diag.Diagnostic) :=
  manifest ← liftResult (assertBool (Get d "experiments.0.manifest"));
  let experiments : gmap string bool := {[ "manifest" := manifest ]} in
  modify (set_logged (fun l =>
    (l ++ [{| log_format := "[DEBUG] Experiments enabled:";
              log_args := [ArgValue (VList (VString <$> enabledExperiments experiments))]
           |}])%list));;
  settings ← external cli_New;
  dbg ← liftResult (assertBool (Get d "debug"));
  let settings := set_Debug dbg settings in
  v ← configuredString d "plugins_path" (PluginsDirectory settings);
  let settings := set_PluginsDirectory v settings in
  v ← configuredString d "registry_config_path" (RegistryConfig settings);
  let settings := set_RegistryConfig v settings in
  v ← configuredString d "repository_config_path" (RepositoryConfig settings);
  let settings := set_RepositoryConfig v settings in
  v ← configuredString d "repository_cache" (RepositoryCache settings);
  let settings := set_RepositoryCache v settings in
  helmDriver ← configuredString d "helm_driver" "";
  ret ({| data := d; Settings := settings; HelmDriver := helmDriver;
          Meta_Mutex := false; experiments := experiments |}, []).
End Configure.

(** What the schema callbacks take from the Go library and from Helm's
    storage drivers: [strings.ToLower], [strconv.ParseBool], [os.Getenv]
    and the four driver names. *)
Class CallbackCollaborators `{sdk : SchemaSDK} : Type := {
  strings_ToLower : string -> string;
  strconv_ParseBool : string -> bool * option error;
  os_Getenv : Env -> string -> string;
  driver_MemoryDriverName : string;
  driver_ConfigMapsDriverName : string;
  driver_SecretsDriverName : string;
  driver_SQLDriverName : string
}.

(** [strings.Join] *)
Fixpoint strings_Join (elems : list string) (sep : string) : string :=
  match elems with
  | [] => ""
  | [x] => x
  | x :: rest => x ++ sep ++ strings_Join rest sep
  end.

Section Callbacks.
Context `{sdk : SchemaSDK} `{!CallbackCollaborators}.

(** The storage drivers that [helm_driver] may name, in lower case. *)
Definition helm_driver_drivers : list string :=
  [ strings_ToLower driver_MemoryDriverName;
    strings_ToLower driver_ConfigMapsDriverName;
    strings_ToLower driver_SecretsDriverName;
    strings_ToLower driver_SQLDriverName ].

(** The [ValidateDiagFunc] of [helm_driver]; an empty list is the nil
    result. *)
Definition helm_driver_ValidateDiagFunc (val : value)
  : result (list diag.Diagnostic) :=
  let drivers := helm_driver_drivers in
  result_bind (assertString val) (fun v =>
    let v := strings_ToLower v in
    if existsb (fun d => bool_decide (d = v)) drivers then Return []
    else
      Return [ {| diag.Severity_ := diag.Error;
                  diag.Summary :=
                    "Invalid storage driver: " ++ v ++ " used for helm_driver";
                  diag.Detail :=
                    "Helm backend storage driver must be set to one of the following values: "
                    ++ strings_Join drivers ", " |} ]).

(** The [ValidateDiagFunc] of [api_version] in the [exec] block. *)
Definition exec_api_version_ValidateDiagFunc (val : value)
  : result (list diag.Diagnostic) :=
  result_bind (assertString val) (fun apiVersion =>
    if bool_decide (apiVersion = "client.authentication.k8s.io/v1alpha1") then
      Return [ {| diag.Severity_ := diag.Warning;
                  diag.Summary :=
                    "v1alpha1 of the client authentication API has been removed, use v1beta1 or above";
                  diag.Detail :=
                    "v1alpha1 of the client authentication API is removed in Kubernetes client versions 1.24 and above. You may need to update your exec plugin to use the latest version." |} ]
    else Return []).

(** The [DefaultFunc] of the [manifest] experiment. *)
Definition experiments_manifest_DefaultFunc : schema.SchemaDefaultFunc :=
  fun env =>
    let v := os_Getenv env "TF_X_HELM_MANIFEST" in
    if bool_decide (v ≠ "") then
      let '(vv, err) := strconv_ParseBool v in
      match err with
      | Some err => (VBool false, Some err)
      | None => (VBool vv, None)
      end
    else (VBool false, None).
End Callbacks.

(** The package state after [GetHelmConfiguration] has written the line
    that opens a call, and after the line that closes a successful one. *)
Definition GetHelmConfiguration_started `{C : Collaborators} (w : World) : World :=
  set_logged (fun l => (l ++ [{| log_format := "[INFO] GetHelmConfiguration start";
                                 log_args := [] |}])%list) w.

Definition GetHelmConfiguration_succeeded `{C : Collaborators} (w : World) : World :=
  set_logged (fun l => (l ++ [{| log_format := "[INFO] GetHelmConfiguration success";
                                 log_args := [] |}])%list) w.

(** The string configured under [key] when [GetOk] reports one, else the
    fallback. *)
Definition configuredOr {P} `{!dataGetter P} (d : P) (key fallback : string) : string :=
  match GetOk d key with
  | (VString v, true) => v
  | _ => fallback
  end.

(** ** Fixtures for the examples *)

(** An in-memory getter: each key holds its value and whether it was set
    explicitly.  As in the plugin SDK, [GetOk] reports a zero value as not
    set and [GetOkExists] reports it as set. *)
Record staticData : Type := { fields : gmap string (value * bool) }.

Definition isZero (v : value) : bool :=
  match v with
  | VNil => true
  | VString s => bool_decide (s = "")
  | VBool b => negb b
  | VInt n => bool_decide (n = 0%Z)
  | VList l => match l with [] => true | _ => false end
  | VMap m => match m with [] => true | _ => false end
  end.

#[export] Instance staticData_dataGetter : dataGetter staticData := {
  Get d key :=
    match fields d !! key with Some (v, _) => v | None => VNil end;
  GetOk d key :=
    match fields d !! key with
    | Some (v, set) => (v, set && negb (isZero v))
    | None => (VNil, false)
    end;
  GetOkExists d key :=
    match fields d !! key with Some (v, set) => (v, set) | None => (VNil, false) end
}.

Definition emptyData : staticData := {| fields := ∅ |}.

(** The SDK's environment-backed default producer: the value of the
    variable when it is set and not empty, else the fallback, and in both
    cases a nil error. *)
Definition osEnv : SchemaSDK := {|
  Env := gmap string string;
  EnvDefaultFunc k dv env :=
    match env !! k with
    | Some v => if decide (v = "") then (dv, None) else (VString v, None)
    | None => (dv, None)
    end
|}.


(** A registry world in which a reference is registry-addressed when it
    starts with the OCI scheme, the host is what lies between the scheme
    and the next slash, and only one password is accepted. *)
Definition toyIsOCI (s : string) : bool := String.prefix "oci://" s.

Definition toyParse (s : string) : URL + error :=
  if String.prefix "oci://" s then
    let rest := String.substring 6 (String.length s - 6) s in
    match String.index 0 "/" rest with
    | Some i =>
        inl {| Scheme := "oci"; Host := String.substring 0 i rest;
               Path := String.substring i (String.length rest - i) rest |}
    | None => inl {| Scheme := "oci"; Host := rest; Path := "" |}
    end
  else inr (errors_New "unsupported URL").

Definition toyLogin (host username password : string) : option error :=
  if decide (password = "s3cret") then None
  else Some (errors_New "unauthorized").

Definition toyRegistry : Collaborators := {|
  Ext := nat;
  Client := unit;
  ConfigurationCore := unit;
  registry_NewClient e := (inl tt, e);
  registry_IsOCI := toyIsOCI;
  url_Parse := toyParse;
  Client_Login _ host username password e := (toyLogin host username password, S e)
|}.

(** The same world, except that no registry client can be created. *)
Definition noClientRegistry : Collaborators := {|
  Ext := nat;
  Client := unit;
  ConfigurationCore := unit;
  registry_NewClient e := (inr (errors_New "cannot read credentials file"), e);
  registry_IsOCI := toyIsOCI;
  url_Parse := toyParse;
  Client_Login _ host username password e := (toyLogin host username password, S e)
|}.

Definition release (repository chart username password : string) : staticData :=
  {| fields := list_to_map [
       ("repository", (VString repository, true));
       ("chart", (VString chart, true));
       ("repository_username", (VString username, true));
       ("repository_password", (VString password, true)) ] |}.

Definition freshWorld `{C : Collaborators} (e : Ext) : World :=
  {| loggedInOCIRegistries := ∅; OCILoginMutex := false; logged := [];
     loginCalls := []; ext := e |}.

Definition exampleHost : string := "registry.example.com".
Definition exampleChart : string := "oci://registry.example.com/charts/foo".

(** A world in which [exampleHost] has been logged into before. *)
Definition knownHostWorld `{C : Collaborators} (e : Ext) : World :=
  {| loggedInOCIRegistries := {[ exampleHost := "" ]}; OCILoginMutex := false;
     logged := []; loginCalls := []; ext := e |}.

(** Configurations that hold no registry client yet. *)
Definition toyConfiguration : Configuration (C := toyRegistry) :=
  @Build_Configuration toyRegistry None tt.

Definition noClientConfiguration : Configuration (C := noClientRegistry) :=
  @Build_Configuration noClientRegistry None tt.

(** Connection building over [toyRegistry]: the kube config is the
    resolved host, which must be set; only the secret driver initialises. *)
Definition toyNewKubeConfig (o : overridableData staticData staticData)
    (namespace : string) : M (World (C := toyRegistry)) ((string + error) * string) :=
  fun w =>
    match Get o "kubernetes.0.host" with
    | VString h =>
        if decide (h = "") then Done (inr (errors_New "no host"), namespace) w
        else Done (inl h, namespace) w
    | _ => Panicked "interface conversion: interface {} is not string" w
    end.

Definition toyInit (actionConfig : Configuration (C := toyRegistry)) (kc : string)
    (namespace driver : string)
  : M (World (C := toyRegistry)) (Configuration (C := toyRegistry) * option error) :=
  fun w =>
    Done (actionConfig,
          if decide (driver = "secret") then None
          else Some (errors_New "unknown driver")) w.

Definition toyConnection
  : ConnectionCollaborators (C := toyRegistry) staticData staticData :=
  @Build_ConnectionCollaborators toyRegistry staticData staticData
    string toyNewKubeConfig tt toyInit.

Definition toyMeta : Meta staticData := {|
  data := {| fields := {[ "kubernetes.0.host" := (VString "https://10.0.0.1", true) ]} |};
  Settings := {| Debug := false; PluginsDirectory := ""; RegistryConfig := "";
                 RepositoryConfig := ""; RepositoryCache := "" |};
  HelmDriver := "secret";
  Meta_Mutex := false;
  experiments := {[ "manifest" := false ]}
|}.

Definition toyRunning : Running (C := toyRegistry) (P := staticData) :=
  {| receiver := toyMeta; globals := freshWorld (C := toyRegistry) 0 |}.

(** A world whose URL parser refuses a reference without a host. *)
Definition strictParse (s : string) : URL + error :=
  if decide (s = "oci://") then inr (errors_New "missing host") else toyParse s.

Definition strictRegistry : Collaborators := {|
  Ext := nat;
  Client := unit;
  ConfigurationCore := unit;
  registry_NewClient e := (inl tt, e);
  registry_IsOCI := toyIsOCI;
  url_Parse := strictParse;
  Client_Login _ host username password e := (toyLogin host username password, S e)
|}.

Definition strictConfiguration : Configuration (C := strictRegistry) :=
  @Build_Configuration strictRegistry None tt.

(** The worlds that a first login at [exampleHost] leads to from
    [freshWorld 0]: after the handshake was accepted, and after it was
    refused. *)
Definition exampleCall (password : string) : LoginCall :=
  {| login_host := exampleHost; login_username := "admin";
     login_password := password |}.

Definition afterLoginWorld : World (C := toyRegistry) :=
  @Build_World toyRegistry {[ exampleHost := "" ]} false
    [{| log_format := "[INFO] Logged into OCI registry"; log_args := [] |}]
    [exampleCall "s3cret"] 1.

Definition afterRefusalWorld : World (C := toyRegistry) :=
  @Build_World toyRegistry ∅ false [] [exampleCall "wrong"] 1.

(** A world in which another goroutine holds the login mutex. *)
Definition heldWorld : World (C := strictRegistry) :=
  @Build_World strictRegistry ∅ true [] [] 0.

(** Helm settings as [cli.New()] finds them in an empty environment. *)
Definition defaultSettings : EnvSettings :=
  {| Debug := false;
     PluginsDirectory := "/home/user/.local/share/helm/plugins";
     RegistryConfig := "/home/user/.config/helm/registry.json";
     RepositoryConfig := "/home/user/.config/helm/repositories.yaml";
     RepositoryCache := "/home/user/.cache/helm/repository" |}.

Definition toyCLI : CLICollaborators (C := toyRegistry) :=
  @Build_CLICollaborators toyRegistry (fun e => (defaultSettings, e)).

(** A provider block that enables the manifest experiment, moves the
    plugins and picks the config-map driver. *)
Definition providerBlock : staticData :=
  {| fields := list_to_map [
       ("experiments.0.manifest", (VBool true, true));
       ("debug", (VBool false, false));
       ("plugins_path", (VString "/opt/helm/plugins", true));
       ("helm_driver", (VString "configmap", true));
       ("kubernetes.0.host", (VString "https://10.0.0.1", true)) ] |}.

Definition configuredMeta : Meta staticData := {|
  data := providerBlock;
  Settings := {| Debug := false;
                 PluginsDirectory := "/opt/helm/plugins";
                 RegistryConfig := "/home/user/.config/helm/registry.json";
                 RepositoryConfig := "/home/user/.config/helm/repositories.yaml";
                 RepositoryCache := "/home/user/.cache/helm/repository" |};
  HelmDriver := "configmap";
  Meta_Mutex := false;
  experiments := {[ "manifest" := true ]}
|}.

Definition configuredWorld : World (C := toyRegistry) :=
  @Build_World toyRegistry ∅ false
    [{| log_format := "[DEBUG] Experiments enabled:";
        log_args := [ArgValue (VList [VString "manifest"])] |}]
    [] 0.

(** Lower case for the letters of ASCII, and the boolean spellings that
    [strconv.ParseBool] reads. *)
Definition asciiLower (c : Ascii.ascii) : Ascii.ascii :=
  let n := Ascii.nat_of_ascii c in
  if (65 <=? n)%nat && (n <=? 90)%nat then Ascii.ascii_of_nat (n + 32) else c.

Fixpoint toyToLower (s : string) : string :=
  match s with
  | EmptyString => EmptyString
  | String c rest => String (asciiLower c) (toyToLower rest)
  end.

Definition toyParseBool (s : string) : bool * option error :=
  if bool_decide (s ∈ ["1"; "t"; "T"; "TRUE"; "true"; "True"]) then (true, None)
  else if bool_decide (s ∈ ["0"; "f"; "F"; "FALSE"; "false"; "False"]) then (false, None)
  else (false, Some (errors_New "strconv.ParseBool: invalid syntax")).

Definition toyCallbacks : CallbackCollaborators (sdk := osEnv) :=
  @Build_CallbackCollaborators osEnv toyToLower toyParseBool
    (fun env k => default "" (env !! k))
    "Memory" "ConfigMap" "Secret" "SQL".

(** A provider whose kubernetes host is the empty string. *)
Definition hostlessMeta : Meta staticData := {|
  data := {| fields := {[ "kubernetes.0.host" := (VString "", true) ]} |};
  Settings := Settings toyMeta;
  HelmDriver := "secret";
  Meta_Mutex := false;
  experiments := ∅
|}.

Definition hostlessRunning : Running (C := toyRegistry) (P := staticData) :=
  {| receiver := hostlessMeta; globals := freshWorld (C := toyRegistry) 0 |}.

(** ** Properties of the resolver *)

Section ResolverProperties.
Context {P O : Type} `{!dataGetter P} `{!dataGetter O}.

(** C1. Override precedence: when the override reports the key present,
    [Get] and [GetOk] of the merged view return the override's value;
    when it does not, they return exactly what the provider source
    returns. *)
Theorem override_precedence (o : overridableData P O) (key : string) :
  (∀ v, GetOk (override o) key = (v, true) →
        Get o key = v ∧ GetOk o key = (v, true)) ∧
  (∀ v, GetOk (override o) key = (v, false) →
        Get o key = Get (providerData o) key ∧
        GetOk o key = GetOk (providerData o) key).
Proof.
  split; intros v Hov; cbn [Get GetOk overridableData_dataGetter];
    unfold overridableData_Get, overridableData_GetOk; rewrite Hov; done.
Qed.
End ResolverProperties.

(** The base holds a driver and a namespace, the override only a namespace:
    the namespace comes from the override, the driver from the base. *)
Lemma override_precedence_witness :
  let base := {| fields := list_to_map
                   [("driver", (VString "secret", true));
                    ("namespace", (VString "default", true))] |} in
  let over := {| fields := list_to_map [("namespace", (VString "prod", true))] |} in
  let o := {| providerData := base; override := over |} in
  Get o "namespace" = VString "prod" ∧ Get o "driver" = VString "secret".
Proof.
  intros base over o.
  destruct (override_precedence o "namespace") as [Hpresent _].
  destruct (override_precedence o "driver") as [_ Habsent].
  split.
  - apply (Hpresent (VString "prod")). reflexivity.
  - rewrite (proj1 (Habsent VNil eq_refl)). reflexivity.
Defined.

Section K8sProperties.
Context `{sdk : SchemaSDK} {P O : Type} `{!dataGetter P} `{!dataGetter O}.

(** [insecure] is the one boolean-typed field of the kubernetes block. *)
Lemma kubernetesResource_bool_field (key : string) (s : schema.Schema) :
  schema.Schema_ kubernetesResource !! key = Some s →
  schema.Type_ s = schema.TypeBool →
  key = "insecure".
Proof.
  unfold kubernetesResource. cbn [schema.Schema_ list_to_map foldr uncurry fst snd].
  repeat (rewrite lookup_insert; case_decide as Hkey;
          [ subst key; intros [= <-]; cbn; first [discriminate | reflexivity]
          | clear Hkey ]).
  rewrite lookup_empty. discriminate.
Qed.

(** With [ok] already true the schema is never consulted. *)
Lemma k8sGetOk_present {T} `{!dataGetter T} (env : Env) (d : T) (key : string)
    (v : value) :
  (if isBool (GetOk d (k8sPrefix ++ key)).1
   then GetOkExists d (k8sPrefix ++ key)
   else GetOk d (k8sPrefix ++ key)) = (v, true) →
  k8sGetOk env d key = Return (v, true).
Proof.
  unfold k8sGetOk. destruct (GetOk d (k8sPrefix ++ key)) as [v0 ok0].
  destruct v0; cbn [isBool fst]; intros Heq;
    first [ injection Heq as -> -> | rewrite Heq ]; reflexivity.
Qed.

(** What the fallback branch computes when the presence check fails and
    the field has a default producer. *)
Lemma k8sGetOk_fallback {T} `{!dataGetter T} (env : Env) (d : T) (key : string)
    (s : schema.Schema) (f : schema.SchemaDefaultFunc) :
  schema.Schema_ kubernetesResource !! key = Some s →
  schema.DefaultFunc s = Some f →
  (if isBool (GetOk d (k8sPrefix ++ key)).1
   then (GetOkExists d (k8sPrefix ++ key)).2
   else (GetOk d (k8sPrefix ++ key)).2) = false →
  k8sGetOk env d key =
    Return ((f env).1,
            match (f env).1 with
            | VString v => negb (String.length v =? 0)%nat
            | VBool b => b
            | _ => false
            end).
Proof.
  intros Hs Hf Habsent. unfold k8sGetOk.
  destruct (GetOk d (k8sPrefix ++ key)) as [v0 ok0].
  assert (Hstep :
    ∃ v1, (match v0 with
           | VBool _ => GetOkExists d (k8sPrefix ++ key)
           | _ => (v0, ok0)
           end) = (v1, false)).
  { destruct v0; cbn [isBool fst snd] in Habsent; subst; eauto.
    destruct (GetOkExists d (k8sPrefix ++ key)) as [v1 ok1].
    cbn in Habsent. subst. eauto. }
  destruct Hstep as [v1 ->]. rewrite Hs, Hf.
  destruct (f env) as [v e]. cbn [fst]. destruct v; reflexivity.
Qed.

(** C2. Boolean zero-value presence: for a boolean-typed field (both
    sources answer [GetOk] with a boolean), an override that sets the
    field to [false] explicitly, which only [GetOkExists] reports as
    present, makes [k8sGetOk] return [false] as present, whatever the
    base holds; when the override does not set the field and the base
    holds [true], the result is [true].  The two cases differ, so
    explicitly false is told apart from not specified. *)
Theorem k8sGetOk_explicit_false (env : Env) (o : overridableData P O)
    (key : string) :
  isBool (GetOk (override o) (k8sPrefix ++ key)).1 = true →
  isBool (GetOk (providerData o) (k8sPrefix ++ key)).1 = true →
  (GetOkExists (override o) (k8sPrefix ++ key) = (VBool false, true) →
     k8sGetOk env o key = Return (VBool false, true)) ∧
  ((GetOk (override o) (k8sPrefix ++ key)).2 = false →
   (GetOkExists (override o) (k8sPrefix ++ key)).2 = false →
   GetOkExists (providerData o) (k8sPrefix ++ key) = (VBool true, true) →
     k8sGetOk env o key = Return (VBool true, true)).
Proof.
  intros Hov Hbase.
  assert (Hmerged : isBool (GetOk o (k8sPrefix ++ key)).1 = true).
  { cbn [GetOk overridableData_dataGetter]. unfold overridableData_GetOk.
    destruct (GetOk (override o) (k8sPrefix ++ key)) as [v ok].
    destruct ok; [exact Hov | exact Hbase]. }
  split.
  - intros Hexplicit. apply k8sGetOk_present. rewrite Hmerged.
    cbn [GetOkExists overridableData_dataGetter].
    unfold overridableData_GetOkExists. rewrite Hexplicit. reflexivity.
  - intros Hno1 Hno2 Hp. apply k8sGetOk_present. rewrite Hmerged.
    cbn [GetOkExists overridableData_dataGetter].
    unfold overridableData_GetOkExists.
    destruct (GetOkExists (override o) (k8sPrefix ++ key)) as [v ok].
    cbn in Hno2. subst ok. exact Hp.
Qed.

(** C6. List-default fallback: when the presence check over the merged
    (override-then-base) view reports the field absent and the field's
    schema registers a [DefaultFunc], [k8sGetOk] returns the value that
    the [DefaultFunc] produces, and the presence flag is computed from
    that value: a string is present exactly when it is not empty, a
    boolean exactly when it is true. *)
Theorem k8sGetOk_default_fallback (env : Env) (o : overridableData P O)
    (key : string) (s : schema.Schema) (f : schema.SchemaDefaultFunc) :
  schema.Schema_ kubernetesResource !! key = Some s →
  schema.DefaultFunc s = Some f →
  (if isBool (GetOk o (k8sPrefix ++ key)).1
   then (GetOkExists o (k8sPrefix ++ key)).2
   else (GetOk o (k8sPrefix ++ key)).2) = false →
  ∃ ok, k8sGetOk env o key = Return ((f env).1, ok) ∧
        (∀ v, (f env).1 = VString v → (ok = true ↔ v ≠ "")) ∧
        (∀ b, (f env).1 = VBool b → ok = b).
Proof.
  intros Hs Hf Habsent.
  rewrite (k8sGetOk_fallback env o key s f Hs Hf Habsent).
  eexists. split; [reflexivity |]. split.
  - intros v ->. destruct v; cbn; split; congruence.
  - intros b ->. reflexivity.
Qed.
End K8sProperties.

(** The base holds [insecure = true]; an override that sets it to [false]
    wins, an override that does not mention it leaves [true]. *)
Lemma k8sGetOk_explicit_false_witness :
  let base := {| fields := {[ "kubernetes.0.insecure" := (VBool true, true) ]} |} in
  let explicit := {| fields := {[ "kubernetes.0.insecure" := (VBool false, true) ]} |} in
  let unset := {| fields := {[ "kubernetes.0.insecure" := (VBool false, false) ]} |} in
  k8sGetOk (sdk := osEnv) ∅ {| providerData := base; override := explicit |} "insecure"
    = Return (VBool false, true) ∧
  k8sGetOk (sdk := osEnv) ∅ {| providerData := base; override := unset |} "insecure"
    = Return (VBool true, true).
Proof.
  intros base explicit unset. split.
  - apply (k8sGetOk_explicit_false (sdk := osEnv) ∅
             {| providerData := base; override := explicit |} "insecure");
      reflexivity.
  - apply (k8sGetOk_explicit_false (sdk := osEnv) ∅
             {| providerData := base; override := unset |} "insecure");
      reflexivity.
Defined.

(** Nothing is configured and [KUBE_HOST] is set in the environment: the
    host comes from the default producer and counts as present. *)
Lemma k8sGetOk_default_fallback_witness :
  let env : gmap string string := {[ "KUBE_HOST" := "https://10.0.0.1" ]} in
  let o := {| providerData := emptyData; override := emptyData |} in
  ∃ ok, k8sGetOk (sdk := osEnv) env o "host" = Return (VString "https://10.0.0.1", ok) ∧
        ok = true.
Proof.
  intros env o.
  destruct (k8sGetOk_default_fallback (sdk := osEnv) env o "host"
              (field schema.TypeString
                 (Some (EnvDefaultFunc "KUBE_HOST" (VString "")))
                 "The hostname (in form of URI) of Kubernetes master.")
              (EnvDefaultFunc "KUBE_HOST" (VString "")))
    as (ok & Hres & Hstr & _); [reflexivity | reflexivity | reflexivity |].
  exists ok. split; [exact Hres |].
  apply (Hstr "https://10.0.0.1"); [reflexivity | discriminate].
Defined.

(** The default producers of the kubernetes block are all built with the
    SDK's [EnvDefaultFunc]: whatever the environment holds, none of them
    returns an error. *)
Lemma kubernetesResource_producers_never_fail (key : string)
    (s : schema.Schema (sdk := osEnv)) (f : schema.SchemaDefaultFunc (sdk := osEnv))
    (env : gmap string string) :
  schema.Schema_ (kubernetesResource (sdk := osEnv)) !! key = Some s →
  schema.DefaultFunc s = Some f →
  (f env).2 = None.
Proof.
  assert (Hnil : ∀ k dv, (EnvDefaultFunc (SchemaSDK := osEnv) k dv env).2 = None).
  { intros k dv. cbn. destruct (env !! k) as [v |]; [| reflexivity].
    destruct (decide (v = "")); reflexivity. }
  unfold kubernetesResource. cbn [schema.Schema_ list_to_map foldr uncurry fst snd].
  repeat (rewrite lookup_insert; case_decide as Hkey;
          [ subst key; intros [= <-]; cbn [schema.DefaultFunc field];
            first [discriminate | intros [= <-]; apply Hnil]
          | clear Hkey ]).
  rewrite lookup_empty. discriminate.
Qed.

(** ** Properties of the registry login *)

Section LoginProperties.
Context `{C : Collaborators} {T : Type} `{!dataGetter T}.

Ltac run_login :=
  unfold OCIRegistryLogin, registryClient_Login, debug;
  unfold mbind, M_bind, bind, ret, external, liftResult,
    defer, Mutex_Lock, Mutex_Unlock, gets, modify,
    set_ext, set_loginCalls, set_logged, set_OCILoginMutex,
    set_loggedInOCIRegistries, withRegistryClient.

(** Closes a goal about a call whose outcome is already a [Done]. *)
Ltac login_done :=
  eexists _, _, _; split; [reflexivity |]; cbn;
  repeat match goal with
         | |- _ ∧ _ => split; [first [reflexivity | assumption] |]
         end;
  intros ? ? [=]; subst; split; reflexivity.

(** No registry client: the call stops with the creation error. *)
Lemma OCIRegistryLogin_no_client (actionConfig : Configuration) (d : T) (w : World)
    (err : error) (e1 : Ext) :
  registry_NewClient (ext w) = (inr err, e1) →
  OCIRegistryLogin actionConfig d w =
    Done (actionConfig,
          Some (fmt_Errorf "could not create OCI registry client: %v" [ArgError err]))
         (set_ext e1 w).
Proof. intros Hc. run_login. rewrite Hc. reflexivity. Qed.

(** Neither reference selects a registry URL. *)
Lemma OCIRegistryLogin_not_registry (actionConfig : Configuration) (d : T) (w : World)
    (c : Client) (e1 : Ext) (repository chartName : string) :
  registry_NewClient (ext w) = (inl c, e1) →
  Get d "repository" = VString repository →
  Get d "chart" = VString chartName →
  selectOCIURL repository chartName = "" →
  OCIRegistryLogin actionConfig d w =
    Done (withRegistryClient actionConfig c, None) (set_ext e1 w).
Proof.
  intros Hc Hrepo Hchart Hsel. run_login.
  rewrite Hc, Hrepo, Hchart. cbn. rewrite Hsel. reflexivity.
Qed.

(** User name or password missing. *)
Lemma OCIRegistryLogin_no_credentials (actionConfig : Configuration) (d : T)
    (w : World) (c : Client) (e1 : Ext) (repository chartName username password : string) :
  registry_NewClient (ext w) = (inl c, e1) →
  Get d "repository" = VString repository →
  Get d "chart" = VString chartName →
  Get d "repository_username" = VString username →
  Get d "repository_password" = VString password →
  username = "" ∨ password = "" →
  OCIRegistryLogin actionConfig d w =
    Done (withRegistryClient actionConfig c, None) (set_ext e1 w).
Proof.
  intros Hc Hrepo Hchart Hu Hp Hempty. run_login.
  rewrite Hc, Hrepo, Hchart. cbn.
  destruct (decide (selectOCIURL repository chartName = "")); [reflexivity |].
  rewrite Hu, Hp. cbn.
  destruct (decide (username ≠ "" ∧ password ≠ "")) as [[? ?] | _];
    [tauto | reflexivity].
Qed.

(** The prefix shared by the calls that reach the critical section. *)
Lemma OCIRegistryLogin_known_host (actionConfig : Configuration) (d : T) (w : World)
    (c : Client) (e1 : Ext) (host username password marker : string) :
  targetsHost d host username password →
  registry_NewClient (ext w) = (inl c, e1) →
  OCILoginMutex w = false →
  loggedInOCIRegistries w !! host = Some marker →
  OCIRegistryLogin actionConfig d w =
    Done (withRegistryClient actionConfig c, None)
         {| loggedInOCIRegistries := loggedInOCIRegistries w;
            OCILoginMutex := false;
            logged := (logged w ++
              [{| log_format := "[INFO] Already logged into OCI registry %q";
                  log_args := [ArgValue (VString host)] |}])%list;
            loginCalls := loginCalls w;
            ext := e1 |}.
Proof.
  intros (repository & chartName & u & Hrepo & Hchart & Hu & Hp & Hsel & Hun & Hpn
          & Hparse & <-) Hc Hfree Hknown.
  run_login. rewrite Hc, Hrepo, Hchart. cbn.
  destruct (decide (selectOCIURL repository chartName = "")); [done |].
  rewrite Hu, Hp. cbn.
  destruct (decide (username ≠ "" ∧ password ≠ "")) as [_ | Hno]; [| tauto].
  rewrite Hparse. cbn. rewrite Hfree. cbn. rewrite Hknown. reflexivity.
Qed.

Lemma OCIRegistryLogin_fresh_host (actionConfig : Configuration) (d : T) (w : World)
    (c : Client) (e1 e2 : Ext) (host username password : string) (r : option error) :
  targetsHost d host username password →
  registry_NewClient (ext w) = (inl c, e1) →
  OCILoginMutex w = false →
  loggedInOCIRegistries w !! host = None →
  Client_Login c host username password e1 = (r, e2) →
  OCIRegistryLogin actionConfig d w =
    match r with
    | Some err =>
        Done (withRegistryClient actionConfig c,
              Some (fmt_Errorf "could not login to OCI registry %q: %v"
                      [ArgValue (VString host); ArgError err]))
             {| loggedInOCIRegistries := loggedInOCIRegistries w;
                OCILoginMutex := false;
                logged := logged w;
                loginCalls := (loginCalls w ++
                  [{| login_host := host; login_username := username;
                      login_password := password |}])%list;
                ext := e2 |}
    | None =>
        Done (withRegistryClient actionConfig c, None)
             {| loggedInOCIRegistries := <[host := ""]> (loggedInOCIRegistries w);
                OCILoginMutex := false;
                logged := (logged w ++
                  [{| log_format := "[INFO] Logged into OCI registry";
                      log_args := [] |}])%list;
                loginCalls := (loginCalls w ++
                  [{| login_host := host; login_username := username;
                      login_password := password |}])%list;
                ext := e2 |}
    end.
Proof.
  intros (repository & chartName & u & Hrepo & Hchart & Hu & Hp & Hsel & Hun & Hpn
          & Hparse & <-) Hc Hfree Hfresh Hlogin.
  run_login. rewrite Hc, Hrepo, Hchart. cbn.
  destruct (decide (selectOCIURL repository chartName = "")); [done |].
  rewrite Hu, Hp. cbn.
  destruct (decide (username ≠ "" ∧ password ≠ "")) as [_ | Hno]; [| tauto].
  rewrite Hparse. cbn. rewrite Hfree. cbn. rewrite Hfresh. cbn.
  rewrite Hlogin. destruct r; reflexivity.
Qed.

(** C3, as the code has it.  Idempotence per host: when the reference
    that addresses a registry parses to a host that is already in
    [loggedInOCIRegistries], [OCIRegistryLogin] performs no handshake and
    leaves the registry mapping unchanged, with the mutex free again; it
    returns success whenever the registry client could be created. *)
Theorem OCIRegistryLogin_known_host_no_handshake (actionConfig : Configuration)
    (d : T) (w : World) (repository chartName username password marker : string)
    (u : URL) :
  Get d "repository" = VString repository →
  Get d "chart" = VString chartName →
  Get d "repository_username" = VString username →
  Get d "repository_password" = VString password →
  url_Parse (selectOCIURL repository chartName) = inl u →
  loggedInOCIRegistries w !! Host u = Some marker →
  OCILoginMutex w = false →
  ∃ cfg r w',
    OCIRegistryLogin actionConfig d w = Done (cfg, r) w' ∧
    loginCalls w' = loginCalls w ∧
    loggedInOCIRegistries w' = loggedInOCIRegistries w ∧
    OCILoginMutex w' = false ∧
    (∀ c e1, registry_NewClient (ext w) = (inl c, e1) →
             r = None ∧ cfg = withRegistryClient actionConfig c).
Proof.
  intros Hrepo Hchart Hu Hp Hparse Hknown Hfree.
  destruct (registry_NewClient (ext w)) as [[c | err] e1] eqn:Hc.
  - destruct (decide (username = "" ∨ password = "")) as [Hempty | Hboth].
    { rewrite (OCIRegistryLogin_no_credentials actionConfig d w c e1
                 repository chartName username password) by assumption.
      login_done. }
    destruct (decide (selectOCIURL repository chartName = "")) as [Hsel | Hsel].
    { rewrite (OCIRegistryLogin_not_registry actionConfig d w c e1
                 repository chartName) by assumption.
      login_done. }
    rewrite (OCIRegistryLogin_known_host actionConfig d w c e1 (Host u)
               username password marker); try assumption.
    + login_done.
    + exists repository, chartName, u.
      repeat split; try assumption; intros ->; apply Hboth; auto.
  - rewrite (OCIRegistryLogin_no_client actionConfig d w err e1) by assumption.
    login_done.
Qed.

(** C4. Atomicity of login failure: when the handshake for a host that is
    not yet recorded fails, [OCIRegistryLogin] returns an error that wraps
    the handshake failure, the registry mapping is unchanged and the host
    is still not recorded; a later call for the same host with
    credentials goes through the handshake again, and when that
    handshake succeeds the call succeeds and records the host. *)
Theorem OCIRegistryLogin_failed_login_not_recorded (actionConfig : Configuration)
    (d : T) (w : World) (host username password : string) (c : Client)
    (e1 e2 : Ext) (err : error) :
  targetsHost d host username password →
  registry_NewClient (ext w) = (inl c, e1) →
  OCILoginMutex w = false →
  loggedInOCIRegistries w !! host = None →
  Client_Login c host username password e1 = (Some err, e2) →
  ∃ w1,
    OCIRegistryLogin actionConfig d w =
      Done (withRegistryClient actionConfig c,
            Some (fmt_Errorf "could not login to OCI registry %q: %v"
                    [ArgValue (VString host); ArgError err])) w1 ∧
    loggedInOCIRegistries w1 = loggedInOCIRegistries w ∧
    loggedInOCIRegistries w1 !! host = None ∧
    loginCalls w1 = (loginCalls w ++
      [{| login_host := host; login_username := username;
          login_password := password |}])%list ∧
    ∀ (actionConfig' : Configuration) (d' : T) (username' password' : string)
      (c' : Client) (e3 e4 : Ext) (r : option error),
      targetsHost d' host username' password' →
      registry_NewClient (ext w1) = (inl c', e3) →
      Client_Login c' host username' password' e3 = (r, e4) →
      ∃ res w2,
        OCIRegistryLogin actionConfig' d' w1 =
          Done (withRegistryClient actionConfig' c', res) w2 ∧
        loginCalls w2 = (loginCalls w1 ++
          [{| login_host := host; login_username := username';
              login_password := password' |}])%list ∧
        (r = None → res = None ∧ loggedInOCIRegistries w2 !! host = Some "").
Proof.
  intros Htarget Hc Hfree Hfresh Hlogin.
  rewrite (OCIRegistryLogin_fresh_host actionConfig d w c e1 e2 host
             username password (Some err)) by assumption.
  eexists. split; [reflexivity |]. cbn.
  repeat split; try done.
  intros actionConfig' d' username' password' c' e3 e4 r Htarget' Hc' Hlogin'.
  match goal with
  | |- context [OCIRegistryLogin actionConfig' d' ?w1] =>
      rewrite (OCIRegistryLogin_fresh_host actionConfig' d' w1 c' e3 e4 host
                 username' password' r Htarget' Hc' eq_refl Hfresh Hlogin')
  end.
  destruct r as [err' |].
  - eexists _, _. split; [reflexivity |]. split; [reflexivity | done].
  - eexists _, _. split; [reflexivity |]. split; [reflexivity |].
    intros _. split; [reflexivity |]. cbn. apply lookup_insert_eq.
Qed.

(** C5, as the code has it.  Non-registry bypass: when neither the
    repository nor the chart is an OCI URL, [OCIRegistryLogin] returns
    without a handshake and without touching the login registry, the
    mutex or the log, whatever the credentials are; it returns success
    whenever the registry client could be created, and it installs that
    client in the configuration it was given. *)
Theorem OCIRegistryLogin_non_registry_bypass (actionConfig : Configuration)
    (d : T) (w : World) (repository chartName : string) :
  Get d "repository" = VString repository →
  Get d "chart" = VString chartName →
  registry_IsOCI repository = false →
  registry_IsOCI chartName = false →
  ∃ cfg r w',
    OCIRegistryLogin actionConfig d w = Done (cfg, r) w' ∧
    loginCalls w' = loginCalls w ∧
    loggedInOCIRegistries w' = loggedInOCIRegistries w ∧
    OCILoginMutex w' = OCILoginMutex w ∧
    logged w' = logged w ∧
    (∀ c e1, registry_NewClient (ext w) = (inl c, e1) →
             r = None ∧ cfg = withRegistryClient actionConfig c).
Proof.
  intros Hrepo Hchart Hr Hch.
  assert (Hsel : selectOCIURL repository chartName = "").
  { unfold selectOCIURL. rewrite Hr, Hch. reflexivity. }
  destruct (registry_NewClient (ext w)) as [[c | err] e1] eqn:Hc.
  - rewrite (OCIRegistryLogin_not_registry actionConfig d w c e1
               repository chartName) by assumption.
    login_done.
  - rewrite (OCIRegistryLogin_no_client actionConfig d w err e1) by assumption.
    login_done.
Qed.

(** C10, as the code has it.  Partial credentials behave as absent: when
    the user name or the password is the empty string,
    [OCIRegistryLogin] performs no handshake and does not modify the
    login registry (nor the mutex or the log), for a registry-addressed
    reference as for any other; it returns success whenever the registry
    client could be created. *)
Theorem OCIRegistryLogin_partial_credentials (actionConfig : Configuration)
    (d : T) (w : World) (repository chartName username password : string) :
  Get d "repository" = VString repository →
  Get d "chart" = VString chartName →
  Get d "repository_username" = VString username →
  Get d "repository_password" = VString password →
  username = "" ∨ password = "" →
  ∃ cfg r w',
    OCIRegistryLogin actionConfig d w = Done (cfg, r) w' ∧
    loginCalls w' = loginCalls w ∧
    loggedInOCIRegistries w' = loggedInOCIRegistries w ∧
    OCILoginMutex w' = OCILoginMutex w ∧
    logged w' = logged w ∧
    (∀ c e1, registry_NewClient (ext w) = (inl c, e1) →
             r = None ∧ cfg = withRegistryClient actionConfig c).
Proof.
  intros Hrepo Hchart Hu Hp Hempty.
  destruct (registry_NewClient (ext w)) as [[c | err] e1] eqn:Hc.
  - rewrite (OCIRegistryLogin_no_credentials actionConfig d w c e1
               repository chartName username password) by assumption.
    login_done.
  - rewrite (OCIRegistryLogin_no_client actionConfig d w err e1) by assumption.
    login_done.
Qed.
End LoginProperties.

(** The example chart reference addresses [exampleHost]. *)
Lemma release_targetsHost (username password : string) :
  username ≠ "" → password ≠ "" →
  targetsHost (C := toyRegistry) (release exampleChart "foo" username password)
    exampleHost username password.
Proof.
  intros Hu Hp.
  exists exampleChart, "foo",
    {| Scheme := "oci"; Host := exampleHost; Path := "/charts/foo" |}.
  repeat split; try reflexivity; try assumption. discriminate.
Qed.

(** C3, counterexample.  The host is recorded and credentials are given,
    but no registry client can be created: the call returns an error, not
    success. *)
Lemma OCIRegistryLogin_known_host_client_error :
  let d := release exampleChart "foo" "admin" "s3cret" in
  let w := knownHostWorld (C := noClientRegistry) 0 in
  (∃ u, url_Parse (Collaborators := noClientRegistry)
          (selectOCIURL (C := noClientRegistry) exampleChart "foo") = inl u ∧
        loggedInOCIRegistries w !! Host u = Some "") ∧
  OCIRegistryLogin (C := noClientRegistry) noClientConfiguration d w =
    Done (noClientConfiguration,
          Some (fmt_Errorf "could not create OCI registry client: %v"
                  [ArgError (errors_New "cannot read credentials file")])) w.
Proof.
  intros d w. split; [eexists; split; reflexivity | reflexivity].
Qed.

Lemma OCIRegistryLogin_known_host_no_handshake_witness :
  let d := release exampleChart "foo" "admin" "s3cret" in
  let w := knownHostWorld (C := toyRegistry) 0 in
  ∃ cfg r w',
    OCIRegistryLogin (C := toyRegistry) toyConfiguration d w = Done (cfg, r) w' ∧
    loginCalls w' = [] ∧
    loggedInOCIRegistries w' = {[ exampleHost := "" ]} ∧
    OCILoginMutex w' = false ∧
    (∀ c e1, registry_NewClient (ext w) = (inl c, e1) →
             r = None ∧ cfg = withRegistryClient toyConfiguration c).
Proof.
  intros d w.
  apply (OCIRegistryLogin_known_host_no_handshake (C := toyRegistry)
           toyConfiguration d w exampleChart "foo" "admin" "s3cret" ""
           {| Scheme := "oci"; Host := exampleHost; Path := "/charts/foo" |});
    reflexivity.
Defined.

(** A wrong password is rejected and leaves no trace in the registry map;
    the retry with the right one goes through a second handshake and is
    recorded. *)
Lemma OCIRegistryLogin_failed_login_not_recorded_witness :
  ∃ w1 res w2,
    OCIRegistryLogin (C := toyRegistry) toyConfiguration
      (release exampleChart "foo" "admin" "wrong") (freshWorld (C := toyRegistry) 0) =
      Done (withRegistryClient toyConfiguration tt,
            Some (fmt_Errorf "could not login to OCI registry %q: %v"
                    [ArgValue (VString exampleHost);
                     ArgError (errors_New "unauthorized")])) w1 ∧
    loggedInOCIRegistries w1 !! exampleHost = None ∧
    OCIRegistryLogin (C := toyRegistry) toyConfiguration
      (release exampleChart "foo" "admin" "s3cret") w1 =
      Done (withRegistryClient toyConfiguration tt, res) w2 ∧
    res = None ∧
    loggedInOCIRegistries w2 !! exampleHost = Some "" ∧
    length (loginCalls w2) = 2.
Proof.
  destruct (OCIRegistryLogin_failed_login_not_recorded (C := toyRegistry)
              toyConfiguration (release exampleChart "foo" "admin" "wrong")
              (freshWorld (C := toyRegistry) 0) exampleHost "admin" "wrong" tt 0 1
              (errors_New "unauthorized"))
    as (w1 & Hfirst & _ & Hnot & Hcalls & Hretry);
    [apply release_targetsHost; discriminate | reflexivity .. |].
  destruct (Hretry toyConfiguration
              (release exampleChart "foo" "admin" "s3cret") "admin" "s3cret"
              tt (ext w1) (S (ext w1)) None)
    as (res & w2 & Hsecond & Hcalls2 & Hok);
    [apply release_targetsHost; discriminate | reflexivity .. |].
  destruct (Hok eq_refl) as [Hres Hrec].
  exists w1, res, w2. repeat split; try assumption.
  rewrite Hcalls2, Hcalls. reflexivity.
Defined.

(** C5, counterexample.  Neither reference is an OCI URL, and still the
    call fails when no registry client can be created; when one can, the
    configuration handed in comes back changed. *)
Lemma OCIRegistryLogin_non_registry_not_inert :
  let d := release "https://charts.example.com" "foo" "" "" in
  registry_IsOCI (Collaborators := toyRegistry) "https://charts.example.com" = false ∧
  registry_IsOCI (Collaborators := toyRegistry) "foo" = false ∧
  OCIRegistryLogin (C := noClientRegistry) noClientConfiguration d
    (freshWorld (C := noClientRegistry) 0) =
    Done (noClientConfiguration,
          Some (fmt_Errorf "could not create OCI registry client: %v"
                  [ArgError (errors_New "cannot read credentials file")]))
         (freshWorld (C := noClientRegistry) 0) ∧
  OCIRegistryLogin (C := toyRegistry) toyConfiguration d (freshWorld (C := toyRegistry) 0) =
    Done (withRegistryClient toyConfiguration tt, None) (freshWorld (C := toyRegistry) 0) ∧
  RegistryClient (withRegistryClient toyConfiguration tt) ≠
    RegistryClient toyConfiguration.
Proof.
  intros d. repeat split; try reflexivity. discriminate.
Qed.

Lemma OCIRegistryLogin_non_registry_bypass_witness :
  let d := release "https://charts.example.com" "foo" "admin" "s3cret" in
  let w := freshWorld (C := toyRegistry) 0 in
  ∃ cfg r w',
    OCIRegistryLogin (C := toyRegistry) toyConfiguration d w = Done (cfg, r) w' ∧
    loginCalls w' = [] ∧
    loggedInOCIRegistries w' = ∅ ∧
    OCILoginMutex w' = false ∧
    logged w' = [] ∧
    (∀ c e1, registry_NewClient (ext w) = (inl c, e1) →
             r = None ∧ cfg = withRegistryClient toyConfiguration c).
Proof.
  intros d w.
  apply (OCIRegistryLogin_non_registry_bypass (C := toyRegistry)
           toyConfiguration d w "https://charts.example.com" "foo");
    reflexivity.
Defined.

(** C10, counterexample.  A registry-addressed chart and a user name
    without a password, but no registry client can be created: the call
    returns an error, not success. *)
Lemma OCIRegistryLogin_partial_credentials_client_error :
  let d := release exampleChart "foo" "admin" "" in
  registry_IsOCI (Collaborators := noClientRegistry) exampleChart = true ∧
  OCIRegistryLogin (C := noClientRegistry) noClientConfiguration d
    (freshWorld (C := noClientRegistry) 0) =
    Done (noClientConfiguration,
          Some (fmt_Errorf "could not create OCI registry client: %v"
                  [ArgError (errors_New "cannot read credentials file")]))
         (freshWorld (C := noClientRegistry) 0).
Proof.
  intros d. split; reflexivity.
Qed.

Lemma OCIRegistryLogin_partial_credentials_witness :
  let d := release exampleChart "foo" "admin" "" in
  let w := freshWorld (C := toyRegistry) 0 in
  ∃ cfg r w',
    OCIRegistryLogin (C := toyRegistry) toyConfiguration d w = Done (cfg, r) w' ∧
    loginCalls w' = [] ∧
    loggedInOCIRegistries w' = ∅ ∧
    OCILoginMutex w' = false ∧
    logged w' = [] ∧
    (∀ c e1, registry_NewClient (ext w) = (inl c, e1) →
             r = None ∧ cfg = withRegistryClient toyConfiguration c).
Proof.
  intros d w.
  apply (OCIRegistryLogin_partial_credentials (C := toyRegistry)
           toyConfiguration d w exampleChart "foo" "admin" "");
    first [reflexivity | right; reflexivity].
Defined.

(** ** Logins in sequence *)

Section SequentialLogins.
Context `{C : Collaborators} {T : Type} `{!dataGetter T}.

(** Once the host is recorded, further calls for it perform no handshake
    and all succeed. *)
Lemma loginEach_known_host (host marker : string)
    (calls : list (Configuration * T)) (w : World) :
  (∀ e, ∃ c e1, registry_NewClient e = (inl c, e1)) →
  Forall (accepted host) calls →
  OCILoginMutex w = false →
  loggedInOCIRegistries w !! host = Some marker →
  ∃ rs w',
    loginEach calls w = Done rs w' ∧
    Forall (λ r, r.2 = None) rs ∧
    length rs = length calls ∧
    loginCalls w' = loginCalls w ∧
    loggedInOCIRegistries w' = loggedInOCIRegistries w ∧
    OCILoginMutex w' = false.
Proof.
  intros Hclient Hcalls. revert w.
  induction Hcalls as [| [cfg d] rest (username & password & Htarget & _) _ IH];
    intros w Hfree Hknown.
  - exists [], w. repeat split; auto.
  - destruct (Hclient (ext w)) as (c & e1 & Hc).
    cbn [loginEach]. unfold mbind, M_bind, bind.
    rewrite (OCIRegistryLogin_known_host cfg d w c e1 host username password
               marker Htarget Hc Hfree Hknown).
    match goal with
    | |- context [loginEach rest ?w1] =>
        destruct (IH w1 eq_refl Hknown) as (rs & w' & -> & Hrs & Hlen & Hcalls' & Hregs & Hmu)
    end.
    eexists _, _. split; [reflexivity |].
    repeat split; auto. cbn. congruence.
Qed.

(** X1. Run one after the other, from a state where the host is not
    recorded and the mutex is free, one or more calls for the same host,
    each with a registry client that can be created and with credentials
    that the registry accepts, perform exactly one handshake between them,
    and all of them return success. *)
Lemma loginEach_single_handshake (host : string)
    (calls : list (Configuration * T)) (w : World) :
  (∀ e, ∃ c e1, registry_NewClient e = (inl c, e1)) →
  Forall (accepted host) calls →
  calls ≠ [] →
  OCILoginMutex w = false →
  loggedInOCIRegistries w !! host = None →
  ∃ rs w',
    loginEach calls w = Done rs w' ∧
    Forall (λ r, r.2 = None) rs ∧
    length rs = length calls ∧
    length (loginCalls w') = S (length (loginCalls w)) ∧
    loggedInOCIRegistries w' !! host = Some "".
Proof.
  intros Hclient Hcalls Hne Hfree Hfresh.
  destruct Hcalls as [| [cfg d] rest (username & password & Htarget & Hvalid) Hrest];
    [done |].
  destruct (Hclient (ext w)) as (c & e1 & Hc).
  destruct (Client_Login c host username password e1) as [r e2] eqn:Hlogin.
  assert (r = None) as -> by (specialize (Hvalid c e1); rewrite Hlogin in Hvalid; done).
  cbn [loginEach]. unfold mbind, M_bind, bind.
  rewrite (OCIRegistryLogin_fresh_host cfg d w c e1 e2 host username password
             None Htarget Hc Hfree Hfresh Hlogin).
  match goal with
  | |- context [loginEach rest ?w1] =>
      destruct (loginEach_known_host host "" rest w1 Hclient Hrest eq_refl)
        as (rs & w' & -> & Hrs & Hlen & Hcalls' & Hregs & Hmu);
        [apply lookup_insert_eq |]
  end.
  eexists _, _. split; [reflexivity |].
  repeat split; auto.
  - cbn. congruence.
  - rewrite Hcalls'. cbn. rewrite length_app. cbn. lia.
  - rewrite Hregs. cbn. apply lookup_insert_eq.
Qed.
End SequentialLogins.

(** ** Properties of the connection factory *)

Section ConnectionProperties.
Context `{C : Collaborators} {P O : Type} `{K : !ConnectionCollaborators P O}.

(** C8. Connection-build frame condition: started with the provider's
    mutex free, and with collaborators that do not block,
    [GetHelmConfiguration] ends, by returning (a configuration or an
    error) or by panicking, and on each of these exits the mutex has
    been released and the provider state (configuration data, settings,
    driver name, experiment flags) is what it was. *)
Theorem GetHelmConfiguration_frame (d : O) (namespace : string) (s : Running) :
  Meta_Mutex (receiver s) = false →
  (∀ o ns w, newKubeConfig o ns w ≠ Blocked) →
  (∀ cfg kc ns driver w, Configuration_Init cfg kc ns driver w ≠ Blocked) →
  ∃ s',
    ((∃ r, GetHelmConfiguration d namespace s = Done r s') ∨
     (∃ reason, GetHelmConfiguration d namespace s = Panicked reason s')) ∧
    Meta_Mutex (receiver s') = false ∧
    data (receiver s') = data (receiver s) ∧
    Settings (receiver s') = Settings (receiver s) ∧
    HelmDriver (receiver s') = HelmDriver (receiver s) ∧
    experiments (receiver s') = experiments (receiver s).
Proof.
  intros Hfree Hkube Hinit. destruct s as [m w]. cbn in Hfree.
  unfold GetHelmConfiguration, debug.
  unfold mbind, M_bind, bind, ret, defer, onMeta, onWorld, Mutex_Lock,
    Mutex_Unlock, gets, modify. cbn. rewrite Hfree. cbn.
  match goal with
  | |- context [newKubeConfig ?o ?ns ?w0] =>
      specialize (Hkube o ns w0); destruct (newKubeConfig o ns w0)
        as [[[kc | err] ns'] w1 | reason w1 |]
  end; cbn.
  - match goal with
    | |- context [Configuration_Init ?cfg ?k ?ns ?drv ?w0] =>
        specialize (Hinit cfg k ns drv w0);
        destruct (Configuration_Init cfg k ns drv w0)
          as [[cfg' [err |]] w2 | reason w2 |]
    end; cbn.
    + eexists. split; [left; eexists; reflexivity |]. cbn. done.
    + eexists. split; [left; eexists; reflexivity |]. cbn. done.
    + eexists. split; [right; eexists; reflexivity |]. cbn. done.
    + done.
  - eexists. split; [left; eexists; reflexivity |]. cbn. done.
  - eexists. split; [right; eexists; reflexivity |]. cbn. done.
  - done.
Qed.
End ConnectionProperties.

Lemma GetHelmConfiguration_frame_witness :
  ∃ s',
    ((∃ r, GetHelmConfiguration (K := toyConnection) emptyData "default" toyRunning
             = Done r s') ∨
     (∃ reason, GetHelmConfiguration (K := toyConnection) emptyData "default" toyRunning
             = Panicked reason s')) ∧
    Meta_Mutex (receiver s') = false ∧
    data (receiver s') = data toyMeta ∧
    Settings (receiver s') = Settings toyMeta ∧
    HelmDriver (receiver s') = "secret" ∧
    experiments (receiver s') = experiments toyMeta.
Proof.
  apply (GetHelmConfiguration_frame (K := toyConnection) emptyData "default" toyRunning).
  - reflexivity.
  - intros o ns w. cbn. unfold toyNewKubeConfig.
    destruct (Get o "kubernetes.0.host") as [| h | | | |]; try discriminate.
    destruct (decide (h = "")); discriminate.
  - intros cfg kc ns driver w. cbn. discriminate.
Defined.

(** ** Further properties of the resolver *)

Section ResolverPresence.
Context {P O : Type} `{!dataGetter P} `{!dataGetter O}.

(** X2. A key is present in the merged view exactly when the override or
    the provider source reports it present, for [GetOk] and for
    [GetOkExists] alike. *)
Theorem overridableData_presence (o : overridableData P O) (key : string) :
  (GetOk o key).2 = (GetOk (override o) key).2 || (GetOk (providerData o) key).2 ∧
  (GetOkExists o key).2 =
    (GetOkExists (override o) key).2 || (GetOkExists (providerData o) key).2.
Proof.
  cbn [GetOk GetOkExists overridableData_dataGetter].
  unfold overridableData_GetOk, overridableData_GetOkExists.
  destruct (GetOk (override o) key) as [v1 [|]],
    (GetOkExists (override o) key) as [v2 [|]]; split; reflexivity.
Qed.

(** X3. When the provider source is coherent, that is its [Get] returns
    the value its [GetOk] returns, so is the merged view: [Get] and
    [GetOk] of the merged view never disagree on the value of a key. *)
Theorem overridableData_Get_agrees_GetOk (o : overridableData P O) :
  (∀ key, Get (providerData o) key = (GetOk (providerData o) key).1) →
  ∀ key, Get o key = (GetOk o key).1.
Proof.
  intros Hcoherent key.
  cbn [Get GetOk overridableData_dataGetter].
  unfold overridableData_Get, overridableData_GetOk.
  destruct (GetOk (override o) key) as [v [|]]; [reflexivity | apply Hcoherent].
Qed.
End ResolverPresence.

(** The in-memory getter is coherent. *)
Lemma staticData_coherent (d : staticData) (key : string) :
  Get d key = (GetOk d key).1.
Proof.
  cbn. destruct (fields d !! key) as [[v set] |]; reflexivity.
Qed.

Lemma overridableData_Get_agrees_GetOk_witness :
  let base := {| fields := {[ "helm_driver" := (VString "secret", true) ]} |} in
  let over := {| fields := {[ "namespace" := (VString "prod", true) ]} |} in
  let o := {| providerData := base; override := over |} in
  Get o "helm_driver" = (GetOk o "helm_driver").1.
Proof.
  intros base over o.
  apply (overridableData_Get_agrees_GetOk o).
  intros key. apply staticData_coherent.
Defined.

Section K8sExtras.
Context `{sdk : SchemaSDK} {T : Type} `{!dataGetter T}.

(** X4. [k8sGetOk] panics exactly when the key is not a field of the
    kubernetes schema and the presence check reports it absent; for the
    fields of the schema it always returns. *)
Theorem k8sGetOk_panics_iff (env : Env) (d : T) (key : string) :
  (∃ reason, k8sGetOk env d key = Panic reason) ↔
  (schema.Schema_ kubernetesResource !! key = None ∧
   (if isBool (GetOk d (k8sPrefix ++ key)).1
    then (GetOkExists d (k8sPrefix ++ key)).2
    else (GetOk d (k8sPrefix ++ key)).2) = false).
Proof.
  unfold k8sGetOk.
  destruct (GetOk d (k8sPrefix ++ key)) as [v0 ok0]. cbn [fst snd].
  set (looked := match v0 with
                 | VBool _ => GetOkExists d (k8sPrefix ++ key)
                 | _ => (v0, ok0)
                 end).
  assert (Hok : (if isBool v0 then (GetOkExists d (k8sPrefix ++ key)).2 else ok0)
                = looked.2).
  { subst looked. destruct v0; reflexivity. }
  rewrite Hok. destruct looked as [v1 ok1]. cbn [snd]. clear Hok.
  destruct ok1.
  - split; [intros [reason [=]] | intros [_ [=]]].
  - destruct (schema.Schema_ kubernetesResource !! key) as [s |].
    + split; [| intros [[=] _]].
      destruct (schema.DefaultFunc s) as [f |]; [destruct (f env) |];
        intros [reason [=]].
    + split; [done | eauto].
Qed.

(** X5. A default producer is asked only for an absent field: when the
    presence check reports a value, [k8sGetOk] returns exactly the value
    that the check read ([GetOkExists]'s for a boolean, [GetOk]'s
    otherwise), as present, whatever the process environment holds. *)
Theorem k8sGetOk_configured_ignores_env (env1 env2 : Env) (d : T) (key : string) :
  (if isBool (GetOk d (k8sPrefix ++ key)).1
   then (GetOkExists d (k8sPrefix ++ key)).2
   else (GetOk d (k8sPrefix ++ key)).2) = true →
  k8sGetOk env1 d key = k8sGetOk env2 d key ∧
  k8sGetOk env1 d key =
    Return ((if isBool (GetOk d (k8sPrefix ++ key)).1
             then GetOkExists d (k8sPrefix ++ key)
             else GetOk d (k8sPrefix ++ key)).1, true).
Proof.
  unfold k8sGetOk.
  destruct (GetOk d (k8sPrefix ++ key)) as [v0 ok0]. cbn [fst snd].
  destruct v0; cbn [isBool fst]; intros Hok;
    try (subst ok0; split; reflexivity).
  destruct (GetOkExists d (k8sPrefix ++ key)) as [v1 ok1]. cbn in Hok. subst ok1.
  split; reflexivity.
Qed.

(** X6. A field without a default producer has no fallback: when the
    presence check reports it absent, [k8sGetOk] returns what the getter
    returned, as absent. *)
Theorem k8sGetOk_no_default (env : Env) (d : T) (key : string) (s : schema.Schema) :
  schema.Schema_ kubernetesResource !! key = Some s →
  schema.DefaultFunc s = None →
  (if isBool (GetOk d (k8sPrefix ++ key)).1
   then (GetOkExists d (k8sPrefix ++ key)).2
   else (GetOk d (k8sPrefix ++ key)).2) = false →
  k8sGetOk env d key =
    Return ((if isBool (GetOk d (k8sPrefix ++ key)).1
             then GetOkExists d (k8sPrefix ++ key)
             else GetOk d (k8sPrefix ++ key)).1, false).
Proof.
  intros Hs Hf. unfold k8sGetOk.
  destruct (GetOk d (k8sPrefix ++ key)) as [v0 ok0]. cbn [fst snd].
  destruct v0; cbn [isBool fst]; intros Hok;
    try (subst ok0; rewrite Hs, Hf; reflexivity).
  destruct (GetOkExists d (k8sPrefix ++ key)) as [v1 ok1]. cbn in Hok. subst ok1.
  rewrite Hs, Hf. reflexivity.
Qed.

(** The fields of the kubernetes block that have no default producer are
    the two list-typed ones. *)
Lemma kubernetesResource_no_default (key : string) (s : schema.Schema) :
  schema.Schema_ kubernetesResource !! key = Some s →
  schema.DefaultFunc s = None →
  key = "config_paths" ∨ key = "exec".
Proof.
  unfold kubernetesResource. cbn [schema.Schema_ list_to_map foldr uncurry fst snd].
  repeat (rewrite lookup_insert; case_decide as Hkey;
          [ subst key; intros [= <-]; cbn; first [discriminate | auto]
          | clear Hkey ]).
  rewrite lookup_empty. discriminate.
Qed.
End K8sExtras.

Lemma k8sGetOk_configured_ignores_env_witness :
  let d := {| fields := {[ "kubernetes.0.host" := (VString "https://10.0.0.1", true) ]} |} in
  let env1 : gmap string string := {[ "KUBE_HOST" := "https://elsewhere" ]} in
  k8sGetOk (sdk := osEnv) env1 d "host" = k8sGetOk (sdk := osEnv) ∅ d "host" ∧
  k8sGetOk (sdk := osEnv) env1 d "host" = Return (VString "https://10.0.0.1", true).
Proof.
  intros d env1.
  exact (k8sGetOk_configured_ignores_env (sdk := osEnv) env1 ∅ d "host" eq_refl).
Defined.

Lemma k8sGetOk_no_default_witness :
  k8sGetOk (sdk := osEnv) ∅ emptyData "config_paths" = Return (VNil, false).
Proof.
  exact (k8sGetOk_no_default (sdk := osEnv) ∅ emptyData "config_paths"
           (field schema.TypeList None
              "A list of paths to kube config files. Can be set with KUBE_CONFIG_PATHS environment variable.")
           eq_refl eq_refl eq_refl).
Defined.

(** ** Properties of [expandStringSlice] *)

(** X7. On a list of strings [expandStringSlice] is the identity. *)
Theorem expandStringSlice_strings (l : list string) :
  expandStringSlice (VString <$> l) = Return l.
Proof.
  induction l as [| x l IH]; [reflexivity |].
  cbn. rewrite IH. reflexivity.
Qed.

(** X8. [expandStringSlice] returns exactly when every element is nil or a
    string; any other element makes it panic. *)
Theorem expandStringSlice_returns_iff (s : list value) :
  (∃ xs, expandStringSlice s = Return xs) ↔
  Forall (λ v, v = VNil ∨ ∃ x, v = VString x) s.
Proof.
  induction s as [| v s IH].
  - split; [constructor | eexists; reflexivity].
  - split.
    + intros [xs Hxs]. cbn in Hxs.
      destruct (expandStringSlice s) as [ys |] eqn:Hrest.
      * constructor; [| apply IH; eauto].
        destruct v; cbn in Hxs; try discriminate; eauto.
      * destruct v; cbn in Hxs; discriminate.
    + intros Hall. inversion Hall as [| ? ? Hv Hs]; subst.
      apply IH in Hs as [ys Hys]. cbn. rewrite Hys.
      destruct Hv as [-> | [x ->]]; eexists; reflexivity.
Qed.

(** X9. When [expandStringSlice] returns, the result has the length of the
    input, a string element is kept and a nil element has become the
    empty string, position by position. *)
Theorem expandStringSlice_elements (s : list value) (xs : list string) :
  expandStringSlice s = Return xs →
  length xs = length s ∧
  ∀ i v, s !! i = Some v →
    xs !! i = Some (match v with VString x => x | _ => "" end).
Proof.
  revert xs. induction s as [| v s IH]; intros xs Hxs.
  - injection Hxs as <-. split; [reflexivity | intros i v [=]].
  - cbn in Hxs. destruct (expandStringSlice s) as [ys |] eqn:Hrest.
    + destruct (IH ys eq_refl) as [Hlen Hnth].
      assert (xs = (match v with VString x => x | _ => "" end) :: ys) as ->.
      { destruct v; cbn in Hxs;
        first [discriminate | injection Hxs as <-; reflexivity]. }
      split; [simpl; by rewrite Hlen |].
      intros [| i] w Hw; cbn in Hw |- *; [by injection Hw as -> | auto].
    + destruct v; cbn in Hxs; discriminate.
Qed.

Lemma expandStringSlice_elements_witness :
  length ["a"; ""; "b"] = length [VString "a"; VNil; VString "b"] ∧
  ∀ i v, [VString "a"; VNil; VString "b"] !! i = Some v →
    ["a"; ""; "b"] !! i = Some (match v with VString x => x | _ => "" end).
Proof.
  apply (expandStringSlice_elements [VString "a"; VNil; VString "b"] ["a"; ""; "b"]).
  reflexivity.
Defined.

(** ** Invariants of the registry login *)

Section LoginInvariants.
Context `{C : Collaborators} {T : Type} `{!dataGetter T}.

Ltac run_call :=
  unfold OCIRegistryLogin, registryClient_Login, debug;
  unfold mbind, M_bind, bind, ret, external, liftResult,
    defer, Mutex_Lock, Mutex_Unlock, gets, modify,
    set_ext, set_loginCalls, set_logged, set_OCILoginMutex,
    set_loggedInOCIRegistries.

(** Every way a call can end, with what it has done to the package state. *)
Lemma OCIRegistryLogin_outcome (actionConfig : Configuration) (d : T) (w : World) :
  match OCIRegistryLogin actionConfig d w with
  | Done (cfg, r) w' =>
      OCILoginMutex w' = OCILoginMutex w ∧
      ((loginCalls w' = loginCalls w ∧
        loggedInOCIRegistries w' = loggedInOCIRegistries w ∧
        (r = None ∨
         ∃ err, r = Some (fmt_Errorf "could not create OCI registry client: %v"
                            [ArgError err]) ∨
                r = Some (fmt_Errorf "could not parse OCI registry URL: %v"
                            [ArgError err]))) ∨
       (∃ host username password,
          OCILoginMutex w = false ∧
          Get d "repository_username" = VString username ∧
          Get d "repository_password" = VString password ∧
          username ≠ "" ∧ password ≠ "" ∧
          loggedInOCIRegistries w !! host = None ∧
          loginCalls w' = (loginCalls w ++
            [{| login_host := host; login_username := username;
                login_password := password |}])%list ∧
          ((r = None ∧
            loggedInOCIRegistries w' = <[host := ""]> (loggedInOCIRegistries w)) ∨
           (∃ err, r = Some (fmt_Errorf "could not login to OCI registry %q: %v"
                               [ArgValue (VString host); ArgError err]) ∧
                   loggedInOCIRegistries w' = loggedInOCIRegistries w))))
  | Panicked _ w' =>
      OCILoginMutex w' = OCILoginMutex w ∧
      loginCalls w' = loginCalls w ∧
      loggedInOCIRegistries w' = loggedInOCIRegistries w
  | Blocked => OCILoginMutex w = true
  end.
Proof.
  run_call.
  destruct (registry_NewClient (ext w)) as [[c | err] e1]; cbn;
    [| split; [reflexivity |]; left; eauto 6].
  destruct (Get d "repository") as [| repository | | | |]; cbn; try done.
  destruct (Get d "chart") as [| chartName | | | |]; cbn; try done.
  destruct (decide (selectOCIURL repository chartName = "")); cbn;
    [split; [reflexivity |]; left; auto |].
  destruct (Get d "repository_username") as [| username | | | |] eqn:Hu; cbn; try done.
  destruct (Get d "repository_password") as [| password | | | |] eqn:Hp; cbn; try done.
  destruct (decide (username ≠ "" ∧ password ≠ "")) as [[Hun Hpn] | _]; cbn;
    [| split; [reflexivity |]; left; auto].
  destruct (url_Parse (selectOCIURL repository chartName)) as [u | err]; cbn;
    [| split; [reflexivity |]; left; eauto 6].
  destruct (OCILoginMutex w) eqn:Hmu; cbn; [reflexivity |].
  destruct (loggedInOCIRegistries w !! Host u) as [marker |] eqn:Hreg; cbn;
    [split; [reflexivity |]; left; auto |].
  destruct (Client_Login c (Host u) username password e1) as [[err |] e2]; cbn.
  - split; [reflexivity |]. right. exists (Host u), username, password.
    repeat (split; [done |]). right. eauto.
  - split; [reflexivity |]. right. exists (Host u), username, password.
    repeat (split; [done |]). left. auto.
Qed.


(** X11. The login registry only grows: whatever a call does, every host
    recorded before it is still recorded, with the same marker, after
    it. *)
Theorem OCIRegistryLogin_registry_grows (actionConfig : Configuration) (d : T)
    (w : World) :
  match OCIRegistryLogin actionConfig d w with
  | Done _ w' | Panicked _ w' =>
      loggedInOCIRegistries w ⊆ loggedInOCIRegistries w'
  | Blocked => True
  end.
Proof.
  pose proof (OCIRegistryLogin_outcome actionConfig d w) as Hout.
  destruct (OCIRegistryLogin actionConfig d w) as [[cfg r] w' | reason w' |];
    [| destruct Hout as (_ & _ & ->); reflexivity | exact I].
  destruct Hout as [_ [(_ & -> & _) | (host & u & p & _ & _ & _ & _ & _ & Hfresh & _ & Hr)]];
    [reflexivity |].
  destruct Hr as [[_ ->] | (err & _ & ->)]; [| reflexivity].
  by apply insert_subseteq.
Qed.

(** X12. A call performs at most one handshake, and the handshake it
    performs presents the user name and password of the getter, both
    non-empty. *)
Theorem OCIRegistryLogin_at_most_one_handshake (actionConfig : Configuration)
    (d : T) (w : World) :
  match OCIRegistryLogin actionConfig d w with
  | Done _ w' | Panicked _ w' =>
      loginCalls w' = loginCalls w ∨
      ∃ call, loginCalls w' = (loginCalls w ++ [call])%list ∧
              Get d "repository_username" = VString (login_username call) ∧
              Get d "repository_password" = VString (login_password call) ∧
              login_username call ≠ "" ∧ login_password call ≠ ""
  | Blocked => True
  end.
Proof.
  pose proof (OCIRegistryLogin_outcome actionConfig d w) as Hout.
  destruct (OCIRegistryLogin actionConfig d w) as [[cfg r] w' | reason w' |];
    [| left; apply Hout | exact I].
  destruct Hout as [_ [(-> & _) | (host & u & p & _ & Hu & Hp & Hun & Hpn & _ & -> & _)]];
    [left; reflexivity |].
  right. eexists. split; [reflexivity |]. cbn. auto.
Qed.

(** X13. A host enters the login registry only through a successful
    handshake: when a call has changed the registry, it has returned
    success, it has performed a handshake with a host that was not
    recorded, and the change is that host, recorded with the empty
    marker. *)
Theorem OCIRegistryLogin_records_after_success (actionConfig cfg : Configuration)
    (d : T) (w w' : World) (r : option error) :
  OCIRegistryLogin actionConfig d w = Done (cfg, r) w' →
  loggedInOCIRegistries w' ≠ loggedInOCIRegistries w →
  r = None ∧
  ∃ call, loginCalls w' = (loginCalls w ++ [call])%list ∧
          loggedInOCIRegistries w !! login_host call = None ∧
          loggedInOCIRegistries w' =
            <[login_host call := ""]> (loggedInOCIRegistries w).
Proof.
  intros Hcall Hchanged.
  pose proof (OCIRegistryLogin_outcome actionConfig d w) as Hout.
  rewrite Hcall in Hout.
  destruct Hout as [_ [(_ & Hsame & _) | (host & u & p & _ & _ & _ & _ & _ & Hfresh & Hcalls & Hr)]];
    [done |].
  destruct Hr as [[-> Hreg] | (err & _ & Hsame)]; [| done].
  split; [reflexivity |]. eexists. split; [exact Hcalls |]. cbn. auto.
Qed.

(** X14. The errors of a call are of three kinds, each wrapping its cause:
    the registry client could not be created, the registry URL could not
    be parsed, or the login was refused. *)
Theorem OCIRegistryLogin_errors (actionConfig cfg : Configuration) (d : T)
    (w w' : World) (e : error) :
  OCIRegistryLogin actionConfig d w = Done (cfg, Some e) w' →
  ∃ cause,
    e = fmt_Errorf "could not create OCI registry client: %v" [ArgError cause] ∨
    e = fmt_Errorf "could not parse OCI registry URL: %v" [ArgError cause] ∨
    ∃ host, e = fmt_Errorf "could not login to OCI registry %q: %v"
                  [ArgValue (VString host); ArgError cause].
Proof.
  intros Hcall.
  pose proof (OCIRegistryLogin_outcome actionConfig d w) as Hout.
  rewrite Hcall in Hout.
  destruct Hout as [_ [(_ & _ & Hr) | (host & u & p & _ & _ & _ & _ & _ & _ & _ & Hr)]].
  - destruct Hr as [[=] | (cause & [[= ->] | [= ->]])]; eauto.
  - destruct Hr as [[[=] _] | (cause & [= ->] & _)]. eauto.
Qed.


(** X16. When the registry client is created, credentials are given and
    the registry URL does not parse, the call returns the parse error
    without a handshake and without taking the mutex, whether it is free
    or not. *)
Theorem OCIRegistryLogin_unparsable_URL (actionConfig : Configuration) (d : T)
    (w : World) (c : Client) (e1 : Ext)
    (repository chartName username password : string) (err : error) :
  registry_NewClient (ext w) = (inl c, e1) →
  Get d "repository" = VString repository →
  Get d "chart" = VString chartName →
  Get d "repository_username" = VString username →
  Get d "repository_password" = VString password →
  selectOCIURL repository chartName ≠ "" →
  username ≠ "" → password ≠ "" →
  url_Parse (selectOCIURL repository chartName) = inr err →
  OCIRegistryLogin actionConfig d w =
    Done (withRegistryClient actionConfig c,
          Some (fmt_Errorf "could not parse OCI registry URL: %v" [ArgError err]))
         (set_ext e1 w).
Proof.
  intros Hc Hrepo Hchart Hu Hp Hsel Hun Hpn Hparse. run_call.
  rewrite Hc, Hrepo, Hchart. cbn.
  destruct (decide (selectOCIURL repository chartName = "")); [done |].
  rewrite Hu, Hp. cbn.
  destruct (decide (username ≠ "" ∧ password ≠ "")) as [_ | Hno]; [| tauto].
  rewrite Hparse. reflexivity.
Qed.

(** X17. The repository comes before the chart: when the repository is an
    OCI URL whose host is not yet recorded and credentials are given, the
    handshake goes to the repository's host, whatever the chart reference
    is. *)
Theorem OCIRegistryLogin_repository_first (actionConfig : Configuration) (d : T)
    (w : World) (c : Client) (e1 e2 : Ext)
    (repository chartName username password : string) (u : URL)
    (r : option error) :
  registry_NewClient (ext w) = (inl c, e1) →
  Get d "repository" = VString repository →
  Get d "chart" = VString chartName →
  Get d "repository_username" = VString username →
  Get d "repository_password" = VString password →
  registry_IsOCI repository = true →
  repository ≠ "" →
  username ≠ "" → password ≠ "" →
  url_Parse repository = inl u →
  OCILoginMutex w = false →
  loggedInOCIRegistries w !! Host u = None →
  Client_Login c (Host u) username password e1 = (r, e2) →
  ∃ res w',
    OCIRegistryLogin actionConfig d w = Done (withRegistryClient actionConfig c, res) w' ∧
    loginCalls w' = (loginCalls w ++
      [{| login_host := Host u; login_username := username;
          login_password := password |}])%list.
Proof.
  intros Hc Hrepo Hchart Hu Hp Hoci Hne Hun Hpn Hparse Hfree Hfresh Hlogin.
  assert (Hsel : selectOCIURL repository chartName = repository).
  { unfold selectOCIURL. rewrite Hoci. reflexivity. }
  assert (Htarget : targetsHost d (Host u) username password).
  { exists repository, chartName, u. rewrite Hsel. repeat split; assumption. }
  rewrite (OCIRegistryLogin_fresh_host actionConfig d w c e1 e2 (Host u)
             username password r Htarget Hc Hfree Hfresh Hlogin).
  destruct r; eexists _, _; split; reflexivity.
Qed.

(** X18. The first successful login for a host records it: the call
    returns success after one handshake with the given credentials, the
    host is in the registry with the empty marker, every other host is as
    before, and the mutex is free again. *)
Theorem OCIRegistryLogin_first_login (actionConfig : Configuration) (d : T)
    (w : World) (c : Client) (e1 e2 : Ext) (host username password : string) :
  targetsHost d host username password →
  registry_NewClient (ext w) = (inl c, e1) →
  OCILoginMutex w = false →
  loggedInOCIRegistries w !! host = None →
  Client_Login c host username password e1 = (None, e2) →
  ∃ w',
    OCIRegistryLogin actionConfig d w = Done (withRegistryClient actionConfig c, None) w' ∧
    loggedInOCIRegistries w' !! host = Some "" ∧
    (∀ other, other ≠ host →
       loggedInOCIRegistries w' !! other = loggedInOCIRegistries w !! other) ∧
    loginCalls w' = (loginCalls w ++
      [{| login_host := host; login_username := username;
          login_password := password |}])%list ∧
    OCILoginMutex w' = false.
Proof.
  intros Htarget Hc Hfree Hfresh Hlogin.
  rewrite (OCIRegistryLogin_fresh_host actionConfig d w c e1 e2 host
             username password None Htarget Hc Hfree Hfresh Hlogin).
  eexists. split; [reflexivity |]. cbn. repeat split.
  - apply lookup_insert_eq.
  - intros other Hother. by apply lookup_insert_ne.
Qed.
End LoginInvariants.

Lemma OCIRegistryLogin_records_after_success_witness :
  (None : option error) = None ∧
  ∃ call,
    loginCalls afterLoginWorld =
      (loginCalls (freshWorld (C := toyRegistry) 0) ++ [call])%list ∧
    loggedInOCIRegistries (freshWorld (C := toyRegistry) 0) !! login_host call = None ∧
    loggedInOCIRegistries afterLoginWorld =
      <[login_host call := ""]>
        (loggedInOCIRegistries (freshWorld (C := toyRegistry) 0)).
Proof.
  apply (OCIRegistryLogin_records_after_success (C := toyRegistry) toyConfiguration
           (withRegistryClient toyConfiguration tt)
           (release exampleChart "foo" "admin" "s3cret")
           (freshWorld (C := toyRegistry) 0) afterLoginWorld None);
    [reflexivity | discriminate].
Defined.

Lemma OCIRegistryLogin_errors_witness :
  ∃ cause,
    fmt_Errorf "could not login to OCI registry %q: %v"
      [ArgValue (VString exampleHost); ArgError (errors_New "unauthorized")] =
      fmt_Errorf "could not create OCI registry client: %v" [ArgError cause] ∨
    fmt_Errorf "could not login to OCI registry %q: %v"
      [ArgValue (VString exampleHost); ArgError (errors_New "unauthorized")] =
      fmt_Errorf "could not parse OCI registry URL: %v" [ArgError cause] ∨
    ∃ host,
      fmt_Errorf "could not login to OCI registry %q: %v"
        [ArgValue (VString exampleHost); ArgError (errors_New "unauthorized")] =
      fmt_Errorf "could not login to OCI registry %q: %v"
        [ArgValue (VString host); ArgError cause].
Proof.
  apply (OCIRegistryLogin_errors (C := toyRegistry) toyConfiguration
           (withRegistryClient toyConfiguration tt)
           (release exampleChart "foo" "admin" "wrong")
           (freshWorld (C := toyRegistry) 0) afterRefusalWorld).
  reflexivity.
Defined.


(** The mutex is held, and the call with the host-less reference still
    returns. *)
Lemma OCIRegistryLogin_unparsable_URL_witness :
  OCIRegistryLogin (C := strictRegistry) strictConfiguration
    (release "oci://" "foo" "admin" "s3cret") heldWorld =
    Done (withRegistryClient strictConfiguration tt,
          Some (fmt_Errorf "could not parse OCI registry URL: %v"
                  [ArgError (errors_New "missing host")])) heldWorld.
Proof.
  apply (OCIRegistryLogin_unparsable_URL (C := strictRegistry) strictConfiguration
           (release "oci://" "foo" "admin" "s3cret") heldWorld tt 0
           "oci://" "foo" "admin" "s3cret" (errors_New "missing host"));
    first [reflexivity | discriminate].
Defined.

(** Repository and chart address different registries: the handshake goes
    to the repository's. *)
Lemma OCIRegistryLogin_repository_first_witness :
  ∃ res w',
    OCIRegistryLogin (C := toyRegistry) toyConfiguration
      (release exampleChart "oci://other.example.org/foo" "admin" "s3cret")
      (freshWorld (C := toyRegistry) 0)
      = Done (withRegistryClient toyConfiguration tt, res) w' ∧
    loginCalls w' = [{| login_host := exampleHost; login_username := "admin";
                        login_password := "s3cret" |}].
Proof.
  apply (OCIRegistryLogin_repository_first (C := toyRegistry) toyConfiguration
           (release exampleChart "oci://other.example.org/foo" "admin" "s3cret")
           (freshWorld (C := toyRegistry) 0) tt 0 1
           exampleChart "oci://other.example.org/foo" "admin" "s3cret"
           {| Scheme := "oci"; Host := exampleHost; Path := "/charts/foo" |} None);
    first [reflexivity | discriminate].
Defined.

Lemma OCIRegistryLogin_first_login_witness :
  ∃ w',
    OCIRegistryLogin (C := toyRegistry) toyConfiguration
      (release exampleChart "foo" "admin" "s3cret") (freshWorld (C := toyRegistry) 0)
      = Done (withRegistryClient toyConfiguration tt, None) w' ∧
    loggedInOCIRegistries w' !! exampleHost = Some "" ∧
    (∀ other, other ≠ exampleHost → loggedInOCIRegistries w' !! other = None) ∧
    loginCalls w' = [{| login_host := exampleHost; login_username := "admin";
                        login_password := "s3cret" |}] ∧
    OCILoginMutex w' = false.
Proof.
  apply (OCIRegistryLogin_first_login (C := toyRegistry) toyConfiguration
           (release exampleChart "foo" "admin" "s3cret")
           (freshWorld (C := toyRegistry) 0) tt 0 1 exampleHost "admin" "s3cret");
    first [apply release_targetsHost; discriminate | reflexivity].
Defined.

(** Three operations, one after the other, for the same fresh host. *)
Lemma loginEach_single_handshake_witness :
  let d := release exampleChart "foo" "admin" "s3cret" in
  ∃ rs w',
    loginEach (C := toyRegistry)
      [(toyConfiguration, d); (toyConfiguration, d); (toyConfiguration, d)]
      (freshWorld (C := toyRegistry) 0) = Done rs w' ∧
    Forall (λ r, r.2 = None) rs ∧
    length rs = 3 ∧
    length (loginCalls w') = 1 ∧
    loggedInOCIRegistries w' !! exampleHost = Some "".
Proof.
  intros d.
  apply (loginEach_single_handshake (C := toyRegistry) exampleHost
           [(toyConfiguration, d); (toyConfiguration, d); (toyConfiguration, d)]
           (freshWorld (C := toyRegistry) 0)).
  - intros e. exists tt, e. reflexivity.
  - repeat constructor; exists "admin", "s3cret";
      (split; [apply release_targetsHost; discriminate | intros c e; reflexivity]).
  - discriminate.
  - reflexivity.
  - reflexivity.
Defined.

(** ** Further properties of the connection factory *)

Section ConnectionRuns.
Context `{C : Collaborators} {P O : Type} `{K : !ConnectionCollaborators P O}.

(** A call that finds the mutex free, step by step. *)
Lemma GetHelmConfiguration_run (d : O) (namespace : string) (s : Running) :
  Meta_Mutex (receiver s) = false →
  GetHelmConfiguration d namespace s =
    match newKubeConfig {| providerData := data (receiver s); override := d |}
            namespace (GetHelmConfiguration_started (globals s)) with
    | Done (inr err, _) w2 =>
        Done (None, Some err) {| receiver := receiver s; globals := w2 |}
    | Done (inl kc, namespace') w2 =>
        match Configuration_Init
                {| RegistryClient := None; core := ConfigurationCore_zero |}
                kc namespace' (HelmDriver (receiver s)) w2 with
        | Done (cfg, Some err) w3 =>
            Done (None, Some err) {| receiver := receiver s; globals := w3 |}
        | Done (cfg, None) w3 =>
            Done (Some cfg, None)
                 {| receiver := receiver s;
                    globals := GetHelmConfiguration_succeeded w3 |}
        | Panicked reason w3 =>
            Panicked reason {| receiver := receiver s; globals := w3 |}
        | Blocked => Blocked
        end
    | Panicked reason w2 =>
        Panicked reason {| receiver := receiver s; globals := w2 |}
    | Blocked => Blocked
    end.
Proof.
  destruct s as [[dat settings drv mu ex] w]. cbn. intros ->.
  unfold GetHelmConfiguration, debug, GetHelmConfiguration_started,
    GetHelmConfiguration_succeeded.
  unfold mbind, M_bind, bind, ret, defer, onMeta, onWorld, Mutex_Lock,
    Mutex_Unlock, gets, modify. cbn.
  destruct (newKubeConfig _ _ _) as [[[kc | err] ns'] w2 | reason w2 |]; cbn;
    try reflexivity.
  destruct (Configuration_Init _ _ _ _ _) as [[cfg [err |]] w3 | reason w3 |];
    reflexivity.
Qed.

(** X19. In a call that finds the provider's mutex free, an error of
    [newKubeConfig] is returned as it is, with no configuration, and
    [Init] is not run: the package state is as [newKubeConfig] left it.
    [newKubeConfig] is given the provider's data under the override of the
    call. *)
Theorem GetHelmConfiguration_kube_error (d : O) (namespace namespace' : string)
    (s : Running) (err : error) (w2 : World) :
  Meta_Mutex (receiver s) = false →
  newKubeConfig {| providerData := data (receiver s); override := d |}
    namespace (GetHelmConfiguration_started (globals s))
    = Done (inr err, namespace') w2 →
  GetHelmConfiguration d namespace s =
    Done (None, Some err) {| receiver := receiver s; globals := w2 |}.
Proof.
  intros Hfree Hkube. rewrite (GetHelmConfiguration_run d namespace s Hfree), Hkube.
  reflexivity.
Qed.

(** X20. In a call that finds the provider's mutex free, [Init] runs on a
    fresh configuration with the kube config, with the namespace as
    [newKubeConfig] left it and with the driver name of the provider; the
    configuration it returns is handed out only when it reports no error,
    and only then is the success line logged. *)
Theorem GetHelmConfiguration_init (d : O) (namespace namespace' : string)
    (s : Running) (kc : KubeConfig) (w2 w3 : World) (cfg : Configuration)
    (e : option error) :
  Meta_Mutex (receiver s) = false →
  newKubeConfig {| providerData := data (receiver s); override := d |}
    namespace (GetHelmConfiguration_started (globals s))
    = Done (inl kc, namespace') w2 →
  Configuration_Init {| RegistryClient := None; core := ConfigurationCore_zero |}
    kc namespace' (HelmDriver (receiver s)) w2 = Done (cfg, e) w3 →
  GetHelmConfiguration d namespace s =
    match e with
    | Some err => Done (None, Some err) {| receiver := receiver s; globals := w3 |}
    | None =>
        Done (Some cfg, None)
             {| receiver := receiver s;
                globals := GetHelmConfiguration_succeeded w3 |}
    end.
Proof.
  intros Hfree Hkube Hinit.
  rewrite (GetHelmConfiguration_run d namespace s Hfree), Hkube, Hinit.
  destruct e; reflexivity.
Qed.

(** X21. A call that returns hands out either a configuration and no
    error, or an error and no configuration. *)
Theorem GetHelmConfiguration_result_shape (d : O) (namespace : string) (s : Running) :
  match GetHelmConfiguration d namespace s with
  | Done (cfg, e) _ => (is_Some cfg ∧ e = None) ∨ (cfg = None ∧ is_Some e)
  | _ => True
  end.
Proof.
  destruct (Meta_Mutex (receiver s)) eqn:Hmu.
  - unfold GetHelmConfiguration, mbind, M_bind, bind, onMeta, Mutex_Lock.
    rewrite Hmu. exact I.
  - rewrite (GetHelmConfiguration_run d namespace s Hmu).
    destruct (newKubeConfig _ _ _) as [[[kc | err] ns'] w2 | reason w2 |];
      [| right; eauto | exact I | exact I].
    destruct (Configuration_Init _ _ _ _ _) as [[cfg [err |]] w3 | reason w3 |];
      [right; eauto | left; eauto | exact I | exact I].
Qed.
End ConnectionRuns.

Lemma GetHelmConfiguration_kube_error_witness :
  GetHelmConfiguration (K := toyConnection) emptyData "default" hostlessRunning =
    Done (None, Some (errors_New "no host"))
      {| receiver := hostlessMeta;
         globals := GetHelmConfiguration_started (freshWorld (C := toyRegistry) 0) |}.
Proof.
  apply (GetHelmConfiguration_kube_error (K := toyConnection) emptyData
           "default" "default" hostlessRunning (errors_New "no host")
           (GetHelmConfiguration_started (freshWorld (C := toyRegistry) 0)));
    reflexivity.
Defined.

Lemma GetHelmConfiguration_init_witness :
  GetHelmConfiguration (K := toyConnection) emptyData "default" toyRunning =
    Done (Some (@Build_Configuration toyRegistry None tt), None)
      {| receiver := toyMeta;
         globals := GetHelmConfiguration_succeeded
                      (GetHelmConfiguration_started (freshWorld (C := toyRegistry) 0)) |}.
Proof.
  apply (GetHelmConfiguration_init (K := toyConnection) emptyData
           "default" "default" toyRunning "https://10.0.0.1"
           (GetHelmConfiguration_started (freshWorld (C := toyRegistry) 0))
           (GetHelmConfiguration_started (freshWorld (C := toyRegistry) 0))
           (@Build_Configuration toyRegistry None tt) None);
    reflexivity.
Defined.

(** ** Properties of the provider configuration *)

Section ConfigureProperties.
Context `{C : Collaborators} `{!CLICollaborators} {P : Type} `{!dataGetter P}.

Lemma configuredString_Done (d : P) (key current v : string) (w w' : World) :
  configuredString d key current w = Done v w' →
  w' = w ∧ v = configuredOr d key current.
Proof.
  unfold configuredString, configuredOr, liftResult, ret.
  destruct (GetOk d key) as [x [|]]; destruct x; cbn; intros [=]; subst;
    split; reflexivity.
Qed.

(** What a call that returns has built. *)
Lemma providerConfigure_outcome (d : P) (terraformVersion : string) (w w' : World)
    (m : Meta P) (diags : list diag.Diagnostic) :
  providerConfigure d terraformVersion w = Done (m, diags) w' →
  ∃ manifest dbg,
    Get d "experiments.0.manifest" = VBool manifest ∧
    Get d "debug" = VBool dbg ∧
    m = {| data := d;
           Settings :=
             {| Debug := dbg;
                PluginsDirectory :=
                  configuredOr d "plugins_path" (PluginsDirectory (cli_New (ext w)).1);
                RegistryConfig :=
                  configuredOr d "registry_config_path"
                    (RegistryConfig (cli_New (ext w)).1);
                RepositoryConfig :=
                  configuredOr d "repository_config_path"
                    (RepositoryConfig (cli_New (ext w)).1);
                RepositoryCache :=
                  configuredOr d "repository_cache"
                    (RepositoryCache (cli_New (ext w)).1) |};
           HelmDriver := configuredOr d "helm_driver" "";
           Meta_Mutex := false;
           experiments := {[ "manifest" := manifest ]} |} ∧
    diags = [] ∧
    loggedInOCIRegistries w' = loggedInOCIRegistries w ∧
    OCILoginMutex w' = OCILoginMutex w ∧
    loginCalls w' = loginCalls w ∧
    ext w' = (cli_New (ext w)).2.
Proof.
  unfold providerConfigure.
  unfold mbind, M_bind, bind, ret, external, liftResult, modify.
  destruct (Get d "experiments.0.manifest") as [| | manifest | | |]; cbn;
    try discriminate.
  destruct (cli_New (ext w)) as [settings e1]. cbn.
  destruct (Get d "debug") as [| | dbg | | |]; cbn; try discriminate.
  repeat match goal with
  | |- context [configuredString d ?key ?cur ?w0] =>
      let Hrun := fresh "Hrun" in
      destruct (configuredString d key cur w0) as [? ? | ? ? |] eqn:Hrun;
        try discriminate;
        apply configuredString_Done in Hrun as [-> ->]
  end.
  intros [= <- <- <-]. exists manifest, dbg. repeat split; reflexivity.
Qed.

(** X22. The [Meta] that [providerConfigure] returns holds the data it was
    given and a free mutex, and comes without diagnostics; the call has
    not touched the login registry, the login mutex or the handshakes. *)
Theorem providerConfigure_fresh (d : P) (terraformVersion : string) (w w' : World)
    (m : Meta P) (diags : list diag.Diagnostic) :
  providerConfigure d terraformVersion w = Done (m, diags) w' →
  data m = d ∧ Meta_Mutex m = false ∧ diags = [] ∧
  loggedInOCIRegistries w' = loggedInOCIRegistries w ∧
  OCILoginMutex w' = OCILoginMutex w ∧
  loginCalls w' = loginCalls w.
Proof.
  intros Hrun.
  destruct (providerConfigure_outcome d terraformVersion w w' m diags Hrun)
    as (manifest & dbg & _ & _ & -> & -> & Hregs & Hmu & Hcalls & _).
  repeat split; first [reflexivity | assumption].
Qed.

(** X23. After [providerConfigure], [manifest] is the one experiment that
    can be enabled, and it is enabled exactly when the provider block sets
    it: [ExperimentEnabled] is true for a name exactly when the name is
    [manifest] and [experiments.0.manifest] is true. *)
Theorem providerConfigure_experiments (d : P) (terraformVersion : string)
    (w w' : World) (m : Meta P) (diags : list diag.Diagnostic) (name : string) :
  providerConfigure d terraformVersion w = Done (m, diags) w' →
  ExperimentEnabled m name = true ↔
  name = "manifest" ∧ Get d "experiments.0.manifest" = VBool true.
Proof.
  intros Hrun.
  destruct (providerConfigure_outcome d terraformVersion w w' m diags Hrun)
    as (manifest & dbg & Hmanifest & _ & -> & _).
  unfold ExperimentEnabled. cbn [experiments]. rewrite Hmanifest.
  destruct (decide (name = "manifest")) as [-> | Hne].
  - rewrite lookup_singleton_eq. cbn. split; [intros ->; auto | intros [_ [= ->]]; auto].
  - rewrite lookup_singleton_ne by auto. cbn. split; [discriminate | tauto].
Qed.

(** X24. Each path of the settings is the one configured in the provider
    block when [GetOk] reports it, and the one [cli.New()] found
    otherwise; the debug flag is the configured one; the driver name is
    the configured one, and empty when none is configured. *)
Theorem providerConfigure_settings (d : P) (terraformVersion : string)
    (w w' : World) (m : Meta P) (diags : list diag.Diagnostic) :
  providerConfigure d terraformVersion w = Done (m, diags) w' →
  Get d "debug" = VBool (Debug (Settings m)) ∧
  PluginsDirectory (Settings m) =
    configuredOr d "plugins_path" (PluginsDirectory (cli_New (ext w)).1) ∧
  RegistryConfig (Settings m) =
    configuredOr d "registry_config_path" (RegistryConfig (cli_New (ext w)).1) ∧
  RepositoryConfig (Settings m) =
    configuredOr d "repository_config_path" (RepositoryConfig (cli_New (ext w)).1) ∧
  RepositoryCache (Settings m) =
    configuredOr d "repository_cache" (RepositoryCache (cli_New (ext w)).1) ∧
  HelmDriver m = configuredOr d "helm_driver" "".
Proof.
  intros Hrun.
  destruct (providerConfigure_outcome d terraformVersion w w' m diags Hrun)
    as (manifest & dbg & _ & Hdbg & -> & _).
  cbn. auto 10.
Qed.

(** X25. [providerConfigure] returns when the two flags it reads are
    booleans and every path or driver name that [GetOk] reports is a
    string; it does not wait for any mutex. *)
Theorem providerConfigure_returns (d : P) (terraformVersion : string) (w : World)
    (manifest dbg : bool) :
  Get d "experiments.0.manifest" = VBool manifest →
  Get d "debug" = VBool dbg →
  (∀ key v, key ∈ ["plugins_path"; "registry_config_path";
                   "repository_config_path"; "repository_cache"; "helm_driver"] →
            GetOk d key = (v, true) → ∃ x, v = VString x) →
  ∃ m w', providerConfigure d terraformVersion w = Done (m, []) w'.
Proof.
  intros Hmanifest Hdbg Hstrings.
  assert (Hconf : ∀ key cur w0,
            key ∈ ["plugins_path"; "registry_config_path";
                   "repository_config_path"; "repository_cache"; "helm_driver"] →
            ∃ v, configuredString d key cur w0 = Done v w0).
  { intros key cur w0 Hkey. unfold configuredString, liftResult, ret.
    destruct (GetOk d key) as [v [|]] eqn:Hget; [| eauto].
    destruct (Hstrings key v Hkey Hget) as [x ->]. cbn. eauto. }
  unfold providerConfigure.
  unfold mbind, M_bind, bind, ret, external, liftResult, modify.
  rewrite Hmanifest. cbn. destruct (cli_New (ext w)) as [settings e1]. cbn.
  rewrite Hdbg. cbn.
  repeat match goal with
  | |- context [configuredString d ?key ?cur ?w0] =>
      let v := fresh "v" in
      let Hv := fresh "Hv" in
      destruct (Hconf key cur w0) as [v Hv];
        [repeat first [apply elem_of_cons; left; reflexivity
                      | apply elem_of_cons; right] |];
        rewrite Hv
  end.
  eauto.
Qed.
End ConfigureProperties.

Lemma providerConfigure_fresh_witness :
  data configuredMeta = providerBlock ∧ Meta_Mutex configuredMeta = false ∧
  ([] : list diag.Diagnostic) = [] ∧
  loggedInOCIRegistries configuredWorld =
    loggedInOCIRegistries (freshWorld (C := toyRegistry) 0) ∧
  OCILoginMutex configuredWorld = OCILoginMutex (freshWorld (C := toyRegistry) 0) ∧
  loginCalls configuredWorld = loginCalls (freshWorld (C := toyRegistry) 0).
Proof.
  assert (Hrun :
    providerConfigure (H := toyCLI) providerBlock "1.5.0"
      (freshWorld (C := toyRegistry) 0) = Done (configuredMeta, []) configuredWorld)
    by reflexivity.
  exact (providerConfigure_fresh (H := toyCLI) providerBlock "1.5.0"
           (freshWorld (C := toyRegistry) 0) configuredWorld configuredMeta [] Hrun).
Defined.

Lemma providerConfigure_experiments_witness :
  ExperimentEnabled configuredMeta "manifest" = true ↔
  "manifest" = "manifest" ∧ Get providerBlock "experiments.0.manifest" = VBool true.
Proof.
  assert (Hrun :
    providerConfigure (H := toyCLI) providerBlock "1.5.0"
      (freshWorld (C := toyRegistry) 0) = Done (configuredMeta, []) configuredWorld)
    by reflexivity.
  exact (providerConfigure_experiments (H := toyCLI) providerBlock "1.5.0"
           (freshWorld (C := toyRegistry) 0) configuredWorld configuredMeta []
           "manifest" Hrun).
Defined.

Lemma providerConfigure_settings_witness :
  Get providerBlock "debug" = VBool (Debug (Settings configuredMeta)) ∧
  PluginsDirectory (Settings configuredMeta) = "/opt/helm/plugins" ∧
  RegistryConfig (Settings configuredMeta) = RegistryConfig defaultSettings ∧
  RepositoryConfig (Settings configuredMeta) = RepositoryConfig defaultSettings ∧
  RepositoryCache (Settings configuredMeta) = RepositoryCache defaultSettings ∧
  HelmDriver configuredMeta = "configmap".
Proof.
  assert (Hrun :
    providerConfigure (H := toyCLI) providerBlock "1.5.0"
      (freshWorld (C := toyRegistry) 0) = Done (configuredMeta, []) configuredWorld)
    by reflexivity.
  exact (providerConfigure_settings (H := toyCLI) providerBlock "1.5.0"
           (freshWorld (C := toyRegistry) 0) configuredWorld configuredMeta [] Hrun).
Defined.

Lemma providerConfigure_returns_witness :
  ∃ m w',
    providerConfigure (H := toyCLI) providerBlock "1.5.0"
      (freshWorld (C := toyRegistry) 0) = Done (m, []) w'.
Proof.
  apply (providerConfigure_returns (H := toyCLI) providerBlock "1.5.0"
           (freshWorld (C := toyRegistry) 0) true false);
    [reflexivity | reflexivity |].
  intros key v Hkey Hget.
  repeat (apply elem_of_cons in Hkey as [-> | Hkey];
          [cbn in Hget; first [discriminate | injection Hget as <-; eauto] |]).
  by apply elem_of_nil in Hkey.
Defined.

Section ConfigureThenConnect.
Context `{C : Collaborators} `{!CLICollaborators} {P O : Type} `{!dataGetter P}
  `{K : !ConnectionCollaborators P O}.

(** X26. The [Meta] that [providerConfigure] returns can serve a connection
    at once: with collaborators that do not block, the first
    [GetHelmConfiguration] on it ends without waiting for the mutex, and
    leaves the [Meta] as it was configured. *)
Theorem providerConfigure_then_GetHelmConfiguration (d : P) (terraformVersion : string)
    (w w' : World) (m : Meta P) (diags : list diag.Diagnostic)
    (d' : O) (namespace : string) :
  providerConfigure d terraformVersion w = Done (m, diags) w' →
  (∀ o ns w0, newKubeConfig o ns w0 ≠ Blocked) →
  (∀ cfg kc ns driver w0, Configuration_Init cfg kc ns driver w0 ≠ Blocked) →
  ∃ s',
    ((∃ r, GetHelmConfiguration d' namespace {| receiver := m; globals := w' |}
             = Done r s') ∨
     (∃ reason, GetHelmConfiguration d' namespace {| receiver := m; globals := w' |}
             = Panicked reason s')) ∧
    receiver s' = m.
Proof.
  intros Hrun Hkube Hinit.
  destruct (providerConfigure_outcome d terraformVersion w w' m diags Hrun)
    as (manifest & dbg & _ & _ & Hm & _).
  assert (Hfree : Meta_Mutex (receiver {| receiver := m; globals := w' |}) = false)
    by (rewrite Hm; reflexivity).
  rewrite (GetHelmConfiguration_run d' namespace _ Hfree). cbn [receiver globals].
  match goal with
  | |- context [newKubeConfig ?o ?ns ?w0] =>
      specialize (Hkube o ns w0);
      destruct (newKubeConfig o ns w0) as [[[kc | err] ns'] w2 | reason w2 |]
  end; [| eexists; split; [left; eauto | reflexivity]
        | eexists; split; [right; eauto | reflexivity] | done].
  match goal with
  | |- context [Configuration_Init ?cfg ?k ?ns ?drv ?w0] =>
      specialize (Hinit cfg k ns drv w0);
      destruct (Configuration_Init cfg k ns drv w0)
        as [[cfg' [err |]] w3 | reason w3 |]
  end; [eexists; split; [left; eauto | reflexivity]
       | eexists; split; [left; eauto | reflexivity]
       | eexists; split; [right; eauto | reflexivity] | done].
Qed.
End ConfigureThenConnect.

Lemma providerConfigure_then_GetHelmConfiguration_witness :
  ∃ s',
    ((∃ r, GetHelmConfiguration (K := toyConnection) emptyData "default"
             {| receiver := configuredMeta; globals := configuredWorld |} = Done r s') ∨
     (∃ reason, GetHelmConfiguration (K := toyConnection) emptyData "default"
             {| receiver := configuredMeta; globals := configuredWorld |}
             = Panicked reason s')) ∧
    receiver s' = configuredMeta.
Proof.
  assert (Hrun :
    providerConfigure (H := toyCLI) providerBlock "1.5.0"
      (freshWorld (C := toyRegistry) 0) = Done (configuredMeta, []) configuredWorld)
    by reflexivity.
  apply (providerConfigure_then_GetHelmConfiguration (H := toyCLI) (K := toyConnection)
           providerBlock "1.5.0" (freshWorld (C := toyRegistry) 0) configuredWorld
           configuredMeta [] emptyData "default" Hrun); clear Hrun.
  - intros o ns w. cbn. unfold toyNewKubeConfig.
    destruct (Get o "kubernetes.0.host") as [| h | | | |]; try discriminate.
    destruct (decide (h = "")); discriminate.
  - intros cfg kc ns driver w. cbn. discriminate.
Defined.

(** ** Experiments and schema callbacks *)

Lemma enabledExperiments_NoDup (l : list (string * bool)) :
  NoDup l.*1 →
  NoDup (omap (fun kv : string * bool => if kv.2 then Some kv.1 else None) l).
Proof.
  induction l as [| [k v] l IH]; [constructor |].
  cbn. intros [Hk Hrest]%NoDup_cons. destruct v; cbn; [| auto].
  apply NoDup_cons. split; [| auto].
  intros ([k' v'] & Hin & Hf)%list_elem_of_omap. cbn in Hf.
  destruct v'; [| discriminate]. injection Hf as ->.
  apply Hk. apply list_elem_of_fmap. exists (k, true). auto.
Qed.

(** X27. [GetEnabledExperiments] lists exactly the experiments for which
    [ExperimentEnabled] answers true, each of them once. *)
Theorem GetEnabledExperiments_spec {P : Type} (m : Meta P) :
  (∀ name, name ∈ GetEnabledExperiments m ↔ ExperimentEnabled m name = true) ∧
  NoDup (GetEnabledExperiments m).
Proof.
  unfold GetEnabledExperiments, enabledExperiments, ExperimentEnabled. split.
  - intros name. rewrite list_elem_of_omap. split.
    + intros ([k v] & Hin & Hf). apply elem_of_map_to_list in Hin. cbn in Hf.
      destruct v; [| discriminate]. injection Hf as ->. rewrite Hin. reflexivity.
    + intros Hen. destruct (experiments m !! name) as [[|] |] eqn:Hlook;
        try discriminate.
      exists (name, true). split; [by apply elem_of_map_to_list | reflexivity].
  - apply enabledExperiments_NoDup, NoDup_fst_map_to_list.
Qed.

Section CallbackProperties.
Context `{sdk : SchemaSDK} `{!CallbackCollaborators}.

(** X28. The validator of [helm_driver] accepts a string exactly when its
    lower-case form is the lower-case form of one of the four driver
    names, and two strings with the same lower-case form get the same
    verdict. *)
Theorem helm_driver_ValidateDiagFunc_accepts (v : string) :
  (helm_driver_ValidateDiagFunc (VString v) = Return [] ↔
   strings_ToLower v ∈ helm_driver_drivers) ∧
  (∀ v', strings_ToLower v' = strings_ToLower v →
         helm_driver_ValidateDiagFunc (VString v') =
         helm_driver_ValidateDiagFunc (VString v)).
Proof.
  split.
  - unfold helm_driver_ValidateDiagFunc. cbn [assertString result_bind].
    destruct (existsb _ helm_driver_drivers) eqn:Hex.
    + split; [intros _ | reflexivity].
      apply existsb_exists in Hex as (x & Hin & Heq).
      apply bool_decide_eq_true in Heq as <-. by apply list_elem_of_In.
    + split; [discriminate |]. intros Hin.
      assert (existsb (λ d, bool_decide (d = strings_ToLower v)) helm_driver_drivers
              = true) as Htrue.
      { apply existsb_exists. exists (strings_ToLower v).
        split; [by apply list_elem_of_In | by apply bool_decide_eq_true]. }
      congruence.
  - intros v' Hsame. unfold helm_driver_ValidateDiagFunc.
    cbn [assertString result_bind]. rewrite Hsame. reflexivity.
Qed.

(** X29. The validator of the exec [api_version] never rejects: what it
    returns are warnings, and it returns one exactly for the removed
    [v1alpha1] version. *)
Theorem exec_api_version_ValidateDiagFunc_warns (val : value)
    (ds : list diag.Diagnostic) :
  exec_api_version_ValidateDiagFunc val = Return ds →
  Forall (λ d, diag.Severity_ d = diag.Warning) ds ∧
  (ds ≠ [] ↔ val = VString "client.authentication.k8s.io/v1alpha1").
Proof.
  unfold exec_api_version_ValidateDiagFunc.
  destruct val as [| apiVersion | | | |]; cbn; try discriminate.
  case_bool_decide as Hv; intros [= <-].
  - subst apiVersion. split; [repeat constructor | split; [reflexivity | discriminate]].
  - split; [constructor |]. split; [done | intros [= ->]; done].
Qed.

(** X30. The default of the [manifest] experiment is a boolean.  It is true
    only when [TF_X_HELM_MANIFEST] is set and parses as true; when the
    variable is not set it is false without an error; and whenever an
    error is returned the value is false. *)
Theorem experiments_manifest_DefaultFunc_spec (env : Env) :
  ∃ b, (experiments_manifest_DefaultFunc env).1 = VBool b ∧
       (b = true →
          os_Getenv env "TF_X_HELM_MANIFEST" ≠ "" ∧
          strconv_ParseBool (os_Getenv env "TF_X_HELM_MANIFEST") = (true, None)) ∧
       (os_Getenv env "TF_X_HELM_MANIFEST" = "" →
          experiments_manifest_DefaultFunc env = (VBool false, None)) ∧
       (is_Some (experiments_manifest_DefaultFunc env).2 → b = false).
Proof.
  unfold experiments_manifest_DefaultFunc.
  case_bool_decide as Hset.
  - destruct (strconv_ParseBool (os_Getenv env "TF_X_HELM_MANIFEST"))
      as [vv [err |]]; cbn [fst snd].
    + exists false. split; [reflexivity |]. split; [discriminate |].
      split; [intros Hempty; contradiction | reflexivity].
    + exists vv. split; [reflexivity |].
      split; [intros ->; split; [exact Hset | reflexivity] |].
      split; [intros Hempty; contradiction | intros [x Hx]; discriminate].
  - exists false. cbn [fst snd]. split; [reflexivity |]. split; [discriminate |].
    split; [reflexivity | intros [x Hx]; discriminate].
Qed.
End CallbackProperties.

Lemma exec_api_version_ValidateDiagFunc_warns_witness :
  Forall (λ d, diag.Severity_ d = diag.Warning) [] ∧
  (([] : list diag.Diagnostic) ≠ [] ↔
   VString "client.authentication.k8s.io/v1beta1"
     = VString "client.authentication.k8s.io/v1alpha1").
Proof.
  apply (exec_api_version_ValidateDiagFunc_warns
           (VString "client.authentication.k8s.io/v1beta1") []).
  reflexivity.
Defined.

(** An upper-case spelling of the secret driver is accepted. *)
Lemma helm_driver_ValidateDiagFunc_accepts_witness :
  helm_driver_ValidateDiagFunc (H := toyCallbacks) (VString "SECRET") = Return [].
Proof.
  apply (proj1 (helm_driver_ValidateDiagFunc_accepts (H := toyCallbacks) "SECRET")).
  apply list_elem_of_In. cbn. auto.
Defined.
